(** * apple-health-influxdb: the HTTP ingress handler and the transcoder

    A shallow embedding of the two versions of the program found in the
    repository:

    - [V1] is [src/main.go]. It skips every metric named "sleep_analysis".
    - [V2] is [src/unnamed/part_000]. It transcodes sleep metrics and parses
      their date-valued fields.

    Go values of type [interface{}] are the inductive [any]; a Go map is a
    stdpp [gmap]; a pointer that may be nil is an [option].  The effects of
    the program (reading the request body, decoding it, writing the debug
    file, walking a map, submitting a point) are recorded as a trace of
    events, and the collaborators the program does not define (the
    time-series write API, [json.Unmarshal], [time.Parse], the order in which
    the Go runtime walks a map) are the fields of the class [Env]: a
    theorem stated for an [Env] holds for all of them.  Logging is left out
    of the model. *)

From Stdlib Require Import ZArith Lia Ascii String.
From Stdlib Require Import Floats.SpecFloat.
From stdpp Require Import gmap strings list fin_maps.

(** ** Values *)

(** [float64], as the IEEE 754 datum it is. *)
Definition float64 := spec_float.

(** The number 72 as [json.Unmarshal] decodes it into [interface{}]: the
    positive [float64] with 53 bit mantissa [72 * 2^46] and exponent [-46]. *)
Definition float64_72 : float64 := S754_finite false 5066549580791808 (-46).

(** [time.Time], reduced to what the program can observe: the instant
    (seconds since the Unix epoch and nanoseconds) and the zone offset in
    seconds east of UTC. *)
Record Time := mkTime { unixSec : Z; nsec : Z; zoneOffset : Z }.

(** A Go [interface{}] value: what [encoding/json] decodes into
    [interface{}] (nil, bool, float64, string, []interface{},
    map[string]interface{}), and [time.Time], which the program itself
    passes to [AddField]. *)
#[local] Unset Elimination Schemes.
Inductive any :=
| ANil
| ABool (b : bool)
| AFloat64 (f : float64)
| AString (s : string)
| ASlice (l : list any)
| AMap (m : gmap string any)
| ATime (t : Time).
#[local] Set Elimination Schemes.

(** Go's [error] values the program meets. *)
Inductive error :=
| errors_New (text : string)
| time_ParseError (layout value message : string)
| influx_Error (text : string).

(** ** The program's types *)

(** [type healthDataMetric struct].  A nil map among [Data] (a JSON null)
    reads like the empty map. *)
Record healthDataMetric := mkMetric {
  Name : string;
  Data : list (gmap string any);
  Units : string
}.

Record healthDataWorkout := mkWorkout { }.

(** [type healthDataPayload struct]: its only field, the anonymous struct
    [Data], is flattened.  The slices hold pointers: a JSON null among
    them decodes to nil. *)
Record healthDataPayload := mkPayload {
  Workouts : list (option healthDataWorkout);
  Metrics : list (option healthDataMetric)
}.

(** ** The write API's points *)

(** [write.Point] of the InfluxDB client, as the calls of the program
    build it: field values are recorded as they are passed. *)
Record Point := mkPoint {
  measurement : string;
  tags : list (string * string);
  fields : list (string * any);
  timestamp : Time
}.

(** The zero [time.Time]: January 1, year 1, 00:00:00 UTC. *)
Definition zeroTime : Time := mkTime (-62135596800) 0 0.

Definition NewPointWithMeasurement (m : string) : Point :=
  mkPoint m [] [] zeroTime.

Definition SetTime (t : Time) (p : Point) : Point :=
  mkPoint (measurement p) (tags p) (fields p) t.

Definition AddTag (k v : string) (p : Point) : Point :=
  mkPoint (measurement p) (tags p ++ [(k, v)]) (fields p) (timestamp p).

Definition AddField (k : string) (v : any) (p : Point) : Point :=
  mkPoint (measurement p) (tags p) (fields p ++ [(k, v)]) (timestamp p).

(** ** Effects *)

(** What the program does to the world, in the order it does it. *)
Inductive event :=
| EvReadAll                              (* ioutil.ReadAll(r.Body) *)
| EvUnmarshal (bdbs : string)            (* json.Unmarshal(bdbs, payload) *)
| EvWriteFile (name data : string)       (* ioutil.WriteFile(name, data, 0644) *)
| EvMapRange (m : gmap string any)       (* a `for k, v := range m` starts *)
| EvWritePoint (p : Point).              (* influxWriteAPI.WritePoint(ctx, p) *)

Definition world := list event.

(** A call returns, or panics (a nil pointer dereference). *)
Inductive outcome (A : Type) :=
| Returned (w : world) (a : A)
| Panicked (w : world).
Arguments Returned {A} w a.
Arguments Panicked {A} w.

Definition M (A : Type) := world -> outcome A.

Definition ret {A} (a : A) : M A := fun w => Returned w a.

Definition bind {A B} (c : M A) (k : A -> M B) : M B :=
  fun w => match c w with
           | Returned w' a => k a w'
           | Panicked w' => Panicked w'
           end.

Definition emit (e : event) : M unit := fun w => Returned (w ++ [e]) tt.

Definition panic {A} : M A := fun w => Panicked w.

(** [*p] for a pointer that may be nil. *)
Definition deref {A} (p : option A) : M A :=
  match p with
  | Some a => ret a
  | None => panic
  end.

Notation "'let*' x := c 'in' k" := (bind c (fun x => k))
  (at level 10, x name, c at level 100, k at level 200).
Notation "c ;; k" := (bind c (fun _ => k))
  (at level 100, k at level 200, right associativity).

(** The points submitted to the write API along a trace. *)
Fixpoint points (w : world) : list Point :=
  match w with
  | [] => []
  | EvWritePoint p :: w' => p :: points w'
  | _ :: w' => points w'
  end.

(** ** The layout of dates *)

Definition dateLayout : string := "2006-01-02 15:04:05 -0700".

(** ** [time.Parse], for the one layout the program uses

    The Go standard library is no part of the repository.  The program is
    therefore modelled over an arbitrary [time_Parse] (see the section
    below); this module gives the instance used where a claim names a
    concrete date.  It follows [time.Parse] chunk by chunk for the layout
    "2006-01-02 15:04:05 -0700": a four digit year, two digit month and
    day, a run of spaces, an hour of one or two digits, two digit minute
    and second, an optional fraction of a second, a run of spaces, a sign
    and four digits of offset, and nothing after. *)
Module GoTime.
#[local] Open Scope Z_scope.

Definition isDigit (s : list ascii) (i : nat) : bool :=
  match s !! i with
  | Some c => (48 <=? nat_of_ascii c)%nat && (nat_of_ascii c <=? 57)%nat
  | None => false
  end.

Definition digit (c : ascii) : Z := Z.of_nat (nat_of_ascii c) - 48.

(** [getnum]: a number of two digits, or of one when [fixed] is false. *)
Definition getnum (s : list ascii) (fixed : bool) : option (Z * list ascii) :=
  match s with
  | c0 :: rest =>
      if isDigit s 0 then
        match rest with
        | c1 :: rest' =>
            if isDigit s 1 then Some (digit c0 * 10 + digit c1, rest')
            else if fixed then None else Some (digit c0, rest)
        | [] => if fixed then None else Some (digit c0, rest)
        end
      else None
  | [] => None
  end.

(** [atoi] on a string of digits. *)
Fixpoint atoi_go (acc : Z) (s : list ascii) : option Z :=
  match s with
  | [] => Some acc
  | c :: rest => if isDigit s 0 then atoi_go (acc * 10 + digit c) rest else None
  end.

Definition atoi (s : list ascii) : option Z :=
  match s with
  | [] => None
  | _ => atoi_go 0 s
  end.

Fixpoint cutspace (s : list ascii) : list ascii :=
  match s with
  | " "%char :: rest => cutspace rest
  | _ => s
  end.

(** [skip value " "]: a run of spaces; an exhausted value passes. *)
Definition skipSpace (s : list ascii) : option (list ascii) :=
  match s with
  | [] => Some []
  | " "%char :: _ => Some (cutspace s)
  | _ => None
  end.

(** [skip value c] for a literal character of the layout. *)
Definition skipChar (c : ascii) (s : list ascii) : option (list ascii) :=
  match s with
  | c' :: rest => if decide (c' = c) then Some rest else None
  | [] => None
  end.

Definition commaOrPeriod (c : ascii) : bool :=
  bool_decide (c = "."%char) || bool_decide (c = ","%char).

Fixpoint digitsPrefix (s : list ascii) : list ascii :=
  match s with
  | c :: rest => if isDigit s 0 then c :: digitsPrefix rest else []
  | [] => []
  end.

(** [parseNanoseconds]: at most nine digits count, scaled to nanoseconds. *)
Definition parseNanoseconds (digits : list ascii) : option Z :=
  let ds := take 9 digits in
  match atoi ds with
  | Some ns => Some (ns * 10 ^ Z.of_nat (9 - length ds))
  | None => None
  end.

(** The fraction the layout does not name but [time.Parse] accepts after
    the seconds. *)
Definition fraction (s : list ascii) : option (Z * list ascii) :=
  match s with
  | c :: rest =>
      if commaOrPeriod c && isDigit rest 0 then
        let ds := digitsPrefix rest in
        match parseNanoseconds ds with
        | Some ns => Some (ns, drop (length ds) rest)
        | None => None
        end
      else Some (0, s)
  | [] => Some (0, s)
  end.

Definition isLeap (year : Z) : bool :=
  (year mod 4 =? 0) && (negb (year mod 100 =? 0) || (year mod 400 =? 0)).

Definition daysIn (month year : Z) : Z :=
  if month =? 2 then (if isLeap year then 29 else 28)
  else if (month =? 4) || (month =? 6) || (month =? 9) || (month =? 11) then 30
  else 31.

(** Days from 1970-01-01 to the given day of the proleptic Gregorian
    calendar. *)
Definition daysSinceEpoch (year month day : Z) : Z :=
  let y := if month <=? 2 then year - 1 else year in
  let era := y / 400 in
  let yoe := y - era * 400 in
  let mp := if month <=? 2 then month + 9 else month - 3 in
  let doy := (153 * mp + 2) / 5 + day - 1 in
  let doe := yoe * 365 + yoe / 4 - yoe / 100 + doy in
  era * 146097 + doe - 719468.

(** [time.Date(...)] in UTC, then moved by the zone offset. *)
Definition Date (year month day hour min sec ns offset : Z) : Time :=
  mkTime (daysSinceEpoch year month day * 86400 + hour * 3600 + min * 60 + sec - offset)
         ns offset.

Definition outOfRange (what : string) : string := ": " +:+ what +:+ " out of range".

Definition orBad {A} (o : option A) : A + string :=
  match o with
  | Some a => inl a
  | None => inr ""
  end.

Definition check (ok : bool) (what : string) : unit + string :=
  if ok then inl tt else inr (outOfRange what).

Definition andThen {A B} (r : A + string) (k : A -> B + string) : B + string :=
  match r with
  | inl a => k a
  | inr msg => inr msg
  end.

Notation "'try' x := r 'in' k" := (andThen r (fun x => k))
  (at level 10, x name, r at level 100, k at level 200).
Notation "'try' ( x , y ) := r 'in' k" := (andThen r (fun xy => let (x, y) := xy in k))
  (at level 10, x name, y name, r at level 100, k at level 200).

(** The chunks of the layout in order; the result is the time or the
    message of the [*time.ParseError]. *)
Definition parseChunks (value : list ascii) : Time + string :=
  try _ := orBad (if isDigit value 0 then Some tt else None) in
  try year := orBad (if (4 <=? length value)%nat then atoi (take 4 value) else None) in
  try v := orBad (skipChar "-" (drop 4 value)) in
  try (month, v) := orBad (getnum v true) in
  try _ := check ((0 <? month) && (month <=? 12)) "month" in
  try v := orBad (skipChar "-" v) in
  try (day, v) := orBad (getnum v true) in
  try v := orBad (skipSpace v) in
  try (hour, v) := orBad (getnum v false) in
  try _ := check ((0 <=? hour) && (hour <? 24)) "hour" in
  try v := orBad (skipChar ":" v) in
  try (min, v) := orBad (getnum v true) in
  try _ := check ((0 <=? min) && (min <? 60)) "minute" in
  try v := orBad (skipChar ":" v) in
  try (sec, v) := orBad (getnum v true) in
  try _ := check ((0 <=? sec) && (sec <? 60)) "second" in
  try (ns, v) := orBad (fraction v) in
  try v := orBad (skipSpace v) in
  try _ := orBad (if (5 <=? length v)%nat then Some tt else None) in
  try (hr, _) := orBad (getnum (take 2 (drop 1 v)) true) in
  try (mm, _) := orBad (getnum (take 2 (drop 3 v)) true) in
  try sign := orBad (match v with
                     | "+"%char :: _ => Some 1
                     | "-"%char :: _ => Some (-1)
                     | _ => None
                     end) in
  try _ := (match drop 5 v with
            | [] => inl tt
            | extra => inr (": extra text: " +:+ string_of_list_ascii extra)
            end) in
  try _ := check ((1 <=? day) && (day <=? daysIn month year)) "day" in
  inl (Date year month day hour min sec ns (sign * ((hr * 60 + mm) * 60))).

(** [time.Parse(layout, value)] for [layout = dateLayout]; another layout
    is outside this model and reported as an error. *)
Definition Parse (layout value : string) : Time + error :=
  if decide (layout = dateLayout) then
    match parseChunks (list_ascii_of_string value) with
    | inl t => inl t
    | inr msg => inr (time_ParseError layout value msg)
    end
  else inr (time_ParseError layout value ": layout not modelled").

End GoTime.

(** ** What the program runs against *)

(** The package-level variables [main] sets once, and the libraries and
    runtime the program calls.  The write API answers a submission with nil
    or an error, and may look at everything that happened before; [range]
    over a map yields its entries once each, in an order the runtime picks
    anew for every loop. *)
Class Env := {
  authenticationToken : string;
  influxWriteAPI_WritePoint : world -> Point -> option error;
  time_Parse : string -> string -> Time + error;
  json_Unmarshal : string -> healthDataPayload + error;
  mapiter : world -> gmap string any -> list (string * any);
  mapiter_perm : forall w m, mapiter w m ≡ₚ map_to_list m
}.

(** [influxWriteAPI.WritePoint(context.Background(), p)]. *)
Definition WritePoint `{Env} (p : Point) : M (option error) :=
  fun w => Returned (w ++ [EvWritePoint p]) (influxWriteAPI_WritePoint w p).

(** The entries a [for k, v := range m] loop visits, in order. *)
Definition rangeMap `{Env} (m : gmap string any) : M (list (string * any)) :=
  fun w => Returned (w ++ [EvMapRange m]) (mapiter w m).

(** ** HTTP *)

(** [http.Request], as far as the handler reads it.  [Header] has
    canonical keys; [Body] is what [ioutil.ReadAll(r.Body)] yields. *)
Record Request := mkRequest {
  Method : string;
  Header : gmap string (list string);
  Body : string + error
}.

(** [http.Header.Get]: the first value of the key, "" when there is none. *)
Definition Header_Get (h : gmap string (list string)) (key : string) : string :=
  match h !! key with
  | Some (v :: _) => v
  | _ => ""
  end.

(** [http.ResponseWriter]: the status once a header was written, and the
    body so far. *)
Record ResponseWriter := mkResponse {
  wroteHeader : option nat;
  written : string
}.

Definition newResponseWriter : ResponseWriter := mkResponse None "".

Definition WriteHeader (code : nat) (w : ResponseWriter) : ResponseWriter :=
  match wroteHeader w with
  | Some _ => w
  | None => mkResponse (Some code) (written w)
  end.

Definition Write (bs : string) (w : ResponseWriter) : ResponseWriter :=
  mkResponse (Some (default 200 (wroteHeader w))) (written w +:+ bs).

(** The status the client receives: 200 when the handler wrote none. *)
Definition statusCode (w : ResponseWriter) : nat := default 200 (wroteHeader w).

Definition StatusBadRequest : nat := 400.
Definition StatusForbidden : nat := 403.
Definition StatusMethodNotAllowed : nat := 405.

(** ** [handleDataPayload]

    The same text in both versions; it differs in the [incomingMetric] it
    calls. *)
Section Handler.
Context `{Env}.
Variable incomingMetric : option healthDataMetric -> M (option error).

(** The loop over [payload.Data.Metrics]. *)
Fixpoint rangeMetrics (metrics : list (option healthDataMetric)) (hasErrors : bool) : M bool :=
  match metrics with
  | [] => ret hasErrors
  | metric :: rest =>
      let* err := incomingMetric metric in
      match err with
      | Some _ => rangeMetrics rest true
      | None => rangeMetrics rest hasErrors
      end
  end.

Definition handleDataPayloadWith (w : ResponseWriter) (r : Request) : M ResponseWriter :=
  if negb (bool_decide (Method r = "POST")) then
    ret (WriteHeader StatusMethodNotAllowed w)
  else if negb (bool_decide (Header_Get (Header r) "Authorization" = authenticationToken)) then
    ret (Write "missing or invalid Authorization header" (WriteHeader StatusForbidden w))
  else
    emit EvReadAll ;;
    match Body r with
    | inr err => ret (WriteHeader 500 w)
    | inl bdbs =>
        emit (EvUnmarshal bdbs) ;;
        match json_Unmarshal bdbs with
        | inr err => ret (WriteHeader StatusBadRequest w)
        | inl payload =>
            emit (EvWriteFile "payload.json" bdbs) ;;
            let* hasErrors := rangeMetrics (Metrics payload) false in
            if hasErrors then ret (WriteHeader 500 w) else ret w
        end
    end.

End Handler.

(** ** [main]

    The command line is the map from the flags it sets to their values;
    [flag.String] reads a flag or falls back on its default.  [main] ends
    in [log.Fatal] or serves with the settings it computed. *)
Definition flag_String (args : gmap string string) (name value : string) : string :=
  default value (args !! name).

Record settings := mkSettings {
  serverURL : string;           (* influxdb2.NewClient(serverURL, authToken) *)
  clientToken : string;
  writeOrg : string;            (* influxClient.WriteAPIBlocking(org, bucket) *)
  writeBucket : string;
  listenAddr : string;          (* http.ListenAndServe(listenAddr, r) *)
  sharedSecret : string         (* authenticationToken *)
}.

Inductive startup :=
| Fatal (msg : string)
| ListenAndServe (s : settings).

Section Main.
Variable clientURL : string -> string.

Definition mainWith (args : gmap string string) : startup :=
  let influxdbFlag := flag_String args "influxdb-host" "localhost:8086" in
  let influxToken := flag_String args "influxdb-token" "" in
  let influxOrg := flag_String args "influxdb-org" "" in
  let influxBucket := flag_String args "influxdb-bucket" "" in
  let listenAddr := flag_String args "listen" "0.0.0.0:8082" in
  let authToken := flag_String args "auth-token" "supersecret" in
  if decide (influxToken = "") then Fatal "You must supply an InfluxDB 2 token"
  else if decide (influxOrg = "") then Fatal "You must supply an InfluxDB 2 organization"
  else ListenAndServe
         (mkSettings (clientURL influxdbFlag) influxToken influxOrg influxBucket
                     listenAddr authToken).
End Main.

(** ** [src/unnamed/part_000] *)
Module V2.
Section Program.
Context `{Env}.

Definition sleepAnalysisDateFields : list string :=
  ["inBedEnd"; "inBedStart"; "sleepStart"; "sleepEnd"].

(** On an error Go returns [time.Now()] beside it; no caller reads it. *)
Definition parseMetricDate (date : any) : Time + error :=
  match date with
  | AString dateStr =>
      match time_Parse "2006-01-02 15:04:05 -0700" dateStr with
      | inr err => inr err
      | inl dateTime => inl dateTime
      end
  | _ => inr (errors_New "date must be string")
  end.

(** The inner loop over [sleepAnalysisDateFields] for one entry [k, v]:
    the point and [isDateField] after it, or the error it returns. *)
Fixpoint rangeSleepFields (k : string) (v : any) (sleepFields : list string) (p : Point)
  : (Point * bool) + error :=
  match sleepFields with
  | [] => inl (p, false)
  | sleepField :: rest =>
      if decide (k = sleepField) then
        match parseMetricDate v with
        | inr err => inr err
        | inl vdate => inl (AddField k (ATime vdate) p, true)
        end
      else rangeSleepFields k v rest p
  end.

(** The loop over the entries of [datum]. *)
Fixpoint rangeDatum (metric : healthDataMetric) (kvs : list (string * any)) (p : Point)
  : Point + error :=
  match kvs with
  | [] => inl p
  | (k, v) :: rest =>
      if decide (k = "date") then rangeDatum metric rest p
      else if decide (Name metric = "sleep_analysis") then
        match rangeSleepFields k v sleepAnalysisDateFields p with
        | inr err => inr err
        | inl (p', isDateField) =>
            rangeDatum metric rest (if isDateField then p' else AddField k v p')
        end
      else rangeDatum metric rest (AddField k v p)
  end.

Definition parseMetricDataPoint (metric : option healthDataMetric) (datum : gmap string any)
  : M (option error) :=
  match datum !! "date" with
  | None => ret None
  | Some date =>
      match parseMetricDate date with
      | inr err => ret (Some err)
      | inl dateTime =>
          let* m := deref metric in
          let p := AddTag "units" (Units m)
                     (SetTime dateTime (NewPointWithMeasurement ("apple_health_" +:+ Name m))) in
          let* kvs := rangeMap datum in
          match rangeDatum m kvs p with
          | inr err => ret (Some err)
          | inl p' => WritePoint p'
          end
      end
  end.

(** The loop over [metric.Data]. *)
Fixpoint rangeData (metric : option healthDataMetric) (data : list (gmap string any))
  : M (option error) :=
  match data with
  | [] => ret None
  | datum :: rest =>
      let* err := parseMetricDataPoint metric datum in
      match err with
      | Some e => ret (Some e)
      | None => rangeData metric rest
      end
  end.

Definition incomingMetric (metric : option healthDataMetric) : M (option error) :=
  let* m := deref metric in
  if (length (Data m) =? 0)%nat then ret None
  else rangeData metric (Data m).

Definition handleDataPayload : ResponseWriter -> Request -> M ResponseWriter :=
  handleDataPayloadWith incomingMetric.

End Program.

(** The client is made for the host as the flag gives it. *)
Definition main : gmap string string -> startup := mainWith (fun host => host).

End V2.

(** ** [src/main.go] *)
Module V1.
Section Program.
Context `{Env}.

(** The loop over the entries of [datum]. *)
Fixpoint rangeDatum (kvs : list (string * any)) (p : Point) : Point :=
  match kvs with
  | [] => p
  | (k, v) :: rest =>
      if decide (k = "date") then rangeDatum rest p
      else rangeDatum rest (AddField k v p)
  end.

Definition parseMetricDataPoint (metric : option healthDataMetric) (datum : gmap string any)
  : M (option error) :=
  match datum !! "date" with
  | None => ret None
  | Some date =>
      match date with
      | AString dateStr =>
          match time_Parse "2006-01-02 15:04:05 -0700" dateStr with
          | inr err => ret (Some err)
          | inl dateTime =>
              let* m := deref metric in
              let p := AddTag "units" (Units m)
                         (SetTime dateTime (NewPointWithMeasurement ("apple_health_" +:+ Name m))) in
              let* kvs := rangeMap datum in
              WritePoint (rangeDatum kvs p)
          end
      | _ => ret (Some (errors_New "date must be string"))
      end
  end.

(** The loop over [metric.Data]. *)
Fixpoint rangeData (metric : option healthDataMetric) (data : list (gmap string any))
  : M (option error) :=
  match data with
  | [] => ret None
  | datum :: rest =>
      let* err := parseMetricDataPoint metric datum in
      match err with
      | Some e => ret (Some e)
      | None => rangeData metric rest
      end
  end.

Definition incomingMetric (metric : option healthDataMetric) : M (option error) :=
  let* m := deref metric in
  if (length (Data m) =? 0)%nat then ret None
  else if decide (Name m = "sleep_analysis") then ret None
  else rangeData metric (Data m).

Definition handleDataPayload : ResponseWriter -> Request -> M ResponseWriter :=
  handleDataPayloadWith incomingMetric.

End Program.

(** The client is made for "http://" followed by the host. *)
Definition main : gmap string string -> startup :=
  mainWith (fun host => "http://" +:+ host).

End V1.

(** ** Test doubles

    A write API that accepts every point, the [time.Parse] of [GoTime],
    a runtime that walks a map in the order of [map_to_list], and a decoder
    that knows the bodies of the examples below. *)
Definition dq : string := String "034" EmptyString.

Definition heartRateDatum : gmap string any :=
  <["date" := AString "2024-01-01 08:00:00 +0000"]> (<["value" := AFloat64 float64_72]> ∅).

Definition heartRate : healthDataMetric :=
  mkMetric "heart_rate" [heartRateDatum] "count/min".

Definition heartRatePoint : Point :=
  mkPoint "apple_health_heart_rate" [("units", "count/min")]
          [("value", AFloat64 float64_72)] (mkTime 1704096000 0 0).

(** [{"data":{"metrics":[null,{"name":"heart_rate","units":"count/min",
    "data":[{"date":"2024-01-01 08:00:00 +0000","value":72}]}]}}] *)
Definition nullMetricBody : string :=
  "{" +:+ dq +:+ "data" +:+ dq +:+ ":{" +:+ dq +:+ "metrics" +:+ dq +:+ ":[null,{"
  +:+ dq +:+ "name" +:+ dq +:+ ":" +:+ dq +:+ "heart_rate" +:+ dq +:+ ","
  +:+ dq +:+ "units" +:+ dq +:+ ":" +:+ dq +:+ "count/min" +:+ dq +:+ ","
  +:+ dq +:+ "data" +:+ dq +:+ ":[{" +:+ dq +:+ "date" +:+ dq +:+ ":"
  +:+ dq +:+ "2024-01-01 08:00:00 +0000" +:+ dq +:+ "," +:+ dq +:+ "value" +:+ dq
  +:+ ":72}]}]}}".

Definition nullMetricPayload : healthDataPayload :=
  mkPayload [] [None; Some heartRate].

(** A metric whose one record has a number for its "date". *)
Definition numericDateDatum : gmap string any :=
  <["date" := AFloat64 float64_72]> (<["value" := AFloat64 float64_72]> ∅).

Definition stepCount : healthDataMetric :=
  mkMetric "step_count" [numericDateDatum] "count".

(** [{"data":{"metrics":[{"name":"step_count","units":"count",
    "data":[{"date":72,"value":72}]},{"name":"heart_rate",
    "units":"count/min","data":[{"date":"2024-01-01 08:00:00 +0000",
    "value":72}]}]}}] *)
Definition mixedBody : string :=
  "{" +:+ dq +:+ "data" +:+ dq +:+ ":{" +:+ dq +:+ "metrics" +:+ dq +:+ ":[{"
  +:+ dq +:+ "name" +:+ dq +:+ ":" +:+ dq +:+ "step_count" +:+ dq +:+ ","
  +:+ dq +:+ "units" +:+ dq +:+ ":" +:+ dq +:+ "count" +:+ dq +:+ ","
  +:+ dq +:+ "data" +:+ dq +:+ ":[{" +:+ dq +:+ "date" +:+ dq +:+ ":72,"
  +:+ dq +:+ "value" +:+ dq +:+ ":72}]},{"
  +:+ dq +:+ "name" +:+ dq +:+ ":" +:+ dq +:+ "heart_rate" +:+ dq +:+ ","
  +:+ dq +:+ "units" +:+ dq +:+ ":" +:+ dq +:+ "count/min" +:+ dq +:+ ","
  +:+ dq +:+ "data" +:+ dq +:+ ":[{" +:+ dq +:+ "date" +:+ dq +:+ ":"
  +:+ dq +:+ "2024-01-01 08:00:00 +0000" +:+ dq +:+ "," +:+ dq +:+ "value" +:+ dq
  +:+ ":72}]}]}}".

Definition mixedPayload : healthDataPayload :=
  mkPayload [] [Some stepCount; Some heartRate].

Definition testUnmarshal (bdbs : string) : healthDataPayload + error :=
  if decide (bdbs = nullMetricBody) then inl nullMetricPayload
  else if decide (bdbs = mixedBody) then inl mixedPayload
  else inr (errors_New "unexpected end of JSON input").

Definition authorized (bdbs : string) : Request :=
  mkRequest "POST" {["Authorization" := ["supersecret"]]} (inl bdbs).

Definition testEnv : Env := {|
  authenticationToken := "supersecret";
  influxWriteAPI_WritePoint := fun _ _ => None;
  time_Parse := GoTime.Parse;
  json_Unmarshal := testUnmarshal;
  mapiter := fun _ m => map_to_list m;
  mapiter_perm := fun _ m => Permutation_refl (map_to_list m)
|}.

(** ** The vocabulary of the properties *)

(** The trace an outcome ends with. *)
Definition trace {A} (o : outcome A) : world :=
  match o with
  | Returned w _ => w
  | Panicked w => w
  end.

(** The points a computation submits when it runs from [w]. *)
Definition newPoints {A} (c : M A) (w : world) : list Point :=
  drop (length (points w)) (points (trace (c w))).

(** The point before its fields are added. *)
Definition basePoint (m : healthDataMetric) (dateTime : Time) : Point :=
  AddTag "units" (Units m)
    (SetTime dateTime (NewPointWithMeasurement ("apple_health_" +:+ Name m))).

(** [p] with the fields [fs] added in order. *)
Definition addFields (fs : list (string * any)) (p : Point) : Point :=
  mkPoint (measurement p) (tags p) (fields p ++ fs) (timestamp p).

Definition notDate (kv : string * any) : Prop := kv.1 <> "date".

#[local] Instance notDate_dec kv : Decision (notDate kv).
Proof. unfold notDate. apply _. Defined.

(** What the loop of [V2.parseMetricDataPoint] makes of one entry. *)
Definition transcode `{Env} (m : healthDataMetric) (kv : string * any) : (string * any) + error :=
  if decide (Name m = "sleep_analysis") then
    if decide (kv.1 ∈ V2.sleepAnalysisDateFields) then
      match V2.parseMetricDate kv.2 with
      | inl t => inl (kv.1, ATime t)
      | inr e => inr e
      end
    else inl kv
  else inl kv.

(** [p] is a point of record [datum] of metric [m]: named after the
    metric, stamped with the parsed "date" of the record, tagged with the
    units of the metric and nothing else, and without a field "date". *)
Definition pointOf `{Env} (m : healthDataMetric) (datum : gmap string any) (p : Point) : Prop :=
  measurement p = "apple_health_" +:+ Name m
  /\ (exists s, datum !! "date" = Some (AString s)
                /\ time_Parse dateLayout s = inl (timestamp p))
  /\ tags p = [("units", Units m)]
  /\ (forall x, ("date", x) ∉ fields p).

(** Records [data] were processed one after the other from [w] to [w'],
    each returning nil. *)
Inductive Processed (parse : gmap string any -> M (option error))
  : world -> list (gmap string any) -> world -> Prop :=
| Processed_nil w : Processed parse w [] w
| Processed_cons w datum w1 rest w2 :
    parse datum w = Returned w1 None ->
    Processed parse w1 rest w2 ->
    Processed parse w (datum :: rest) w2.

(** Metrics were handed to [incomingMetric] one after the other from [w]
    to [w'], each call returning; [rs] are the errors they returned. *)
Inductive Dispatched (incomingMetric : option healthDataMetric -> M (option error))
  : world -> list (option healthDataMetric) -> list (option error) -> world -> Prop :=
| Dispatched_nil w : Dispatched incomingMetric w [] [] w
| Dispatched_cons w metric w1 r rest rs w2 :
    incomingMetric metric w = Returned w1 r ->
    Dispatched incomingMetric w1 rest rs w2 ->
    Dispatched incomingMetric w (metric :: rest) (r :: rs) w2.

Definition isError (r : option error) : bool :=
  match r with
  | Some _ => true
  | None => false
  end.

(** Further examples. *)

(** A night of sleep, as the exporter sends it. *)
Definition sleepDatum : gmap string any :=
  <["date" := AString "2024-01-01 08:00:00 +0000"]>
  (<["sleepStart" := AString "2023-12-31 23:30:00 +0000"]>
  (<["sleepEnd" := AString "2024-01-01 07:30:00 +0000"]>
  (<["asleep" := AFloat64 float64_72]> ∅))).

Definition sleepAnalysis : healthDataMetric :=
  mkMetric "sleep_analysis" [sleepDatum] "hr".

Definition datelessDatum : gmap string any := <["value" := AFloat64 float64_72]> ∅.

Definition unauthorizedGet : Request := mkRequest "GET" ∅ (inl mixedBody).

Definition unauthorizedPost : Request := mkRequest "POST" ∅ (inl mixedBody).

(** ** The vocabulary of the further properties *)

(** The events of the transcoder: a loop over a record, a submission. *)
Definition transcoderEvent (e : event) : Prop :=
  match e with
  | EvMapRange _ => True
  | EvWritePoint _ => True
  | _ => False
  end.

Definition hasDate (datum : gmap string any) : Prop := is_Some (datum !! "date").

#[local] Instance hasDate_dec datum : Decision (hasDate datum).
Proof. unfold hasDate. apply _. Defined.

(** The ways [parseMetricDataPoint] ends on a record [datum] of a metric
    [m] from [w]: without a "date" it returns nil and nothing happened;
    with a "date" it does not accept it returns an error and nothing
    happened; it walked the record and returned the error of an entry;
    or it walked the record and submitted one point, which is a point of
    the record with one field for each entry other than "date", and
    returned what the write API answered. *)
Inductive recordRun `{Env} (m : healthDataMetric) (datum : gmap string any) (w : world)
  : outcome (option error) -> Prop :=
| run_skipped :
    datum !! "date" = None ->
    recordRun m datum w (Returned w None)
| run_bad_date e :
    hasDate datum ->
    recordRun m datum w (Returned w (Some e))
| run_bad_entry e :
    hasDate datum ->
    recordRun m datum w (Returned (w ++ [EvMapRange datum]) (Some e))
| run_submitted p :
    hasDate datum ->
    pointOf m datum p ->
    NoDup (fields p).*1 ->
    length (fields p) = size (delete "date" datum) ->
    recordRun m datum w
      (Returned (w ++ [EvMapRange datum; EvWritePoint p])
                (influxWriteAPI_WritePoint (w ++ [EvMapRange datum]) p)).

(** What is known of a point submitted for one of the records [data] of
    the metric [m]. *)
Definition submittedFor `{Env} (m : healthDataMetric) (data : list (gmap string any))
    (p : Point) : Prop :=
  exists datum, datum ∈ data /\ pointOf m datum p /\ NoDup (fields p).*1
                /\ length (fields p) = size (delete "date" datum).

(** What [incomingMetric] does on a metric [m] from [w]: it returns, what
    it adds to the trace are events of the transcoder, the points among
    them are points of records of the metric, at most one for each
    record with a "date", and when the write API refuses every point at
    most one at all, with an error returned after it. *)
Definition metricRun `{Env} (m : healthDataMetric) (w : world) (o : outcome (option error))
  : Prop :=
  exists evs r,
    o = Returned (w ++ evs) r
    /\ Forall transcoderEvent evs
    /\ Forall (submittedFor m (Data m)) (points evs)
    /\ length (points evs) <= length (filter hasDate (Data m))
    /\ ((forall w' p, influxWriteAPI_WritePoint w' p <> None) ->
        length (points evs) <= 1 /\ (points evs <> [] -> r <> None)).

(** [p] is a point of a record of one of the metrics. *)
Definition pointFrom `{Env} (metrics : list (option healthDataMetric)) (p : Point) : Prop :=
  exists m datum, Some m ∈ metrics /\ datum ∈ Data m /\ pointOf m datum p.

(** The events of the handler before it turns to the metrics. *)
Definition preamble (bdbs : string) : world :=
  [EvReadAll; EvUnmarshal bdbs; EvWriteFile "payload.json" bdbs].

(** What the handler may add to the trace for a request: nothing; the
    reading of the body; the reading and the decoding; or the reading,
    the decoding and the writing of the debug file, named payload.json
    and holding the body, and after these only events of the
    transcoder. *)
Definition requestTrace (r : Request) (evs : world) : Prop :=
  evs = []
  \/ evs = [EvReadAll]
  \/ (exists bdbs, Body r = inl bdbs /\ evs = [EvReadAll; EvUnmarshal bdbs])
  \/ (exists bdbs tail, Body r = inl bdbs /\ evs = preamble bdbs ++ tail
                        /\ Forall transcoderEvent tail).

(** The responses of the handler. *)
Definition responses : list ResponseWriter :=
  [ mkResponse None "";
    mkResponse (Some 400) "";
    mkResponse (Some 403) "missing or invalid Authorization header";
    mkResponse (Some 405) "";
    mkResponse (Some 500) "" ].

(** The records of a metric that have a "date" key. *)
Definition datedRecords (m : healthDataMetric) : nat :=
  length (filter hasDate (Data m)).

(** The same for [src/main.go], which skips sleep metrics. *)
Definition datedRecordsV1 (m : healthDataMetric) : nat :=
  if decide (Name m = "sleep_analysis") then 0 else datedRecords m.

(** The sum of [due] over the metrics that are not nil. *)
Definition duePoints (due : healthDataMetric -> nat) (metrics : list (option healthDataMetric))
  : nat :=
  sum_list ((fun metric => from_option due 0 metric) <$> metrics).

(** An environment like [testEnv] whose write API refuses every point. *)
Definition downEnv : Env := {|
  authenticationToken := "supersecret";
  influxWriteAPI_WritePoint := fun _ _ => Some (influx_Error "connection refused");
  time_Parse := GoTime.Parse;
  json_Unmarshal := testUnmarshal;
  mapiter := fun _ m => map_to_list m;
  mapiter_perm := fun _ m => Permutation_refl (map_to_list m)
|}.

(** Two heart rate samples in one metric. *)
Definition laterHeartRateDatum : gmap string any :=
  <["date" := AString "2024-01-01 09:00:00 +0000"]> (<["value" := AFloat64 float64_72]> ∅).

Definition heartRates : healthDataMetric :=
  mkMetric "heart_rate" [heartRateDatum; laterHeartRateDatum] "count/min".

(** A night of sleep whose sleepStart is no date. *)
Definition brokenSleepDatum : gmap string any :=
  <["date" := AString "2024-01-01 08:00:00 +0000"]>
  (<["sleepStart" := AString "yesterday evening"]>
  (<["asleep" := AFloat64 float64_72]> ∅)).

Definition brokenSleep : healthDataMetric :=
  mkMetric "sleep_analysis" [brokenSleepDatum] "hr".



Definition unreadable : Request :=
  mkRequest "POST" {["Authorization" := ["supersecret"]]}
            (inr (errors_New "unexpected EOF")).

Definition noFlags : gmap string string := ∅.

Definition someFlags : gmap string string :=
  <["influxdb-token" := "t0ken"]> (<["influxdb-org" := "home"]> ∅).

(** * Properties *)

(** 2024-01-01 08:00:00 UTC is 1704096000 seconds after the epoch. *)
Example Parse_new_year_2024 :
  GoTime.Parse dateLayout "2024-01-01 08:00:00 +0000" = inl (mkTime 1704096000 0 0).
Proof. vm_compute. reflexivity. Qed.

(** [float64_72] is 72: its mantissa is [72 * 2^46], scaled by [2^-46]. *)
Example float64_72_is_72 :
  float64_72 = S754_finite false (Z.to_pos (72 * 2 ^ 46)) (-46).
Proof. reflexivity. Qed.

(** ** Traces *)

Lemma points_app (w1 w2 : world) : points (w1 ++ w2) = points w1 ++ points w2.
Proof.
  induction w1 as [|e w1 IH]; simpl; [reflexivity|].
  destruct e; simpl; rewrite ?IH; reflexivity.
Qed.

Lemma newPoints_app {A} (c : M A) (w evs : world) :
  trace (c w) = w ++ evs -> newPoints c w = points evs.
Proof.
  intros E. unfold newPoints. rewrite E, points_app.
  apply drop_app_length.
Qed.

Lemma newPoints_same {A} (c : M A) (w : world) :
  trace (c w) = w -> newPoints c w = [].
Proof.
  intros E. rewrite (newPoints_app c w []); [reflexivity|].
  rewrite app_nil_r. exact E.
Qed.

Lemma addFields_nil (p : Point) : addFields [] p = p.
Proof. destruct p. unfold addFields. simpl. rewrite app_nil_r. reflexivity. Qed.

Lemma addFields_AddField (k : string) (v : any) (fs : list (string * any)) (p : Point) :
  addFields fs (AddField k v p) = addFields ((k, v) :: fs) p.
Proof. unfold addFields, AddField. simpl. rewrite <- app_assoc. reflexivity. Qed.

(** Walking a map but for its "date" entry visits the entries of the map
    without "date", in some order. *)
Lemma filter_notDate_perm (kvs : list (string * any)) (datum : gmap string any) :
  kvs ≡ₚ map_to_list datum ->
  filter notDate kvs ≡ₚ map_to_list (delete "date" datum).
Proof.
  intros Hp. rewrite Hp. clear kvs Hp.
  apply NoDup_Permutation.
  - apply NoDup_filter, NoDup_map_to_list.
  - apply NoDup_map_to_list.
  - intros [k v]. rewrite list_elem_of_filter, !elem_of_map_to_list.
    unfold notDate. simpl. rewrite lookup_delete_Some.
    split; intros [? ?]; split; auto.
Qed.

Section V1_facts.
Context `{Env}.

Lemma V1_rangeDatum_spec (kvs : list (string * any)) (p : Point) :
  V1.rangeDatum kvs p = addFields (filter notDate kvs) p.
Proof.
  revert p. induction kvs as [|[k v] kvs IH]; intros p; simpl.
  - symmetry. apply addFields_nil.
  - rewrite filter_cons. unfold notDate at 1. simpl.
    destruct (decide (k = "date")) as [->|Hk].
    + rewrite decide_False by (intros Hn; apply Hn; reflexivity). apply IH.
    + rewrite decide_True by exact Hk. rewrite IH. apply addFields_AddField.
Qed.

Lemma V1_parse_run (m : healthDataMetric) (datum : gmap string any) (w : world)
    (dateStr : string) (dateTime : Time) :
  datum !! "date" = Some (AString dateStr) ->
  time_Parse dateLayout dateStr = inl dateTime ->
  V1.parseMetricDataPoint (Some m) datum w =
    let p := addFields (filter notDate (mapiter w datum)) (basePoint m dateTime) in
    Returned (w ++ [EvMapRange datum; EvWritePoint p])
             (influxWriteAPI_WritePoint (w ++ [EvMapRange datum]) p).
Proof.
  intros Hd Ht. unfold V1.parseMetricDataPoint. rewrite Hd.
  change "2006-01-02 15:04:05 -0700" with dateLayout. rewrite Ht.
  simpl. unfold bind, deref, ret, rangeMap, WritePoint. simpl.
  rewrite V1_rangeDatum_spec, <- app_assoc. reflexivity.
Qed.

End V1_facts.

Section V2_facts.
Context `{Env}.

Lemma parseMetricDate_string (s : string) :
  V2.parseMetricDate (AString s) = time_Parse dateLayout s.
Proof. unfold V2.parseMetricDate, dateLayout. destruct (time_Parse _ s); reflexivity. Qed.

Lemma parseMetricDate_inl (d : any) (t : Time) :
  V2.parseMetricDate d = inl t ->
  exists s, d = AString s /\ time_Parse dateLayout s = inl t.
Proof.
  destruct d; simpl; try discriminate.
  intros E. exists s. split; [reflexivity|].
  rewrite <- parseMetricDate_string. exact E.
Qed.

Lemma rangeSleepFields_spec (k : string) (v : any) (l : list string) (p : Point) :
  V2.rangeSleepFields k v l p =
    if decide (k ∈ l) then
      match V2.parseMetricDate v with
      | inr err => inr err
      | inl vdate => inl (AddField k (ATime vdate) p, true)
      end
    else inl (p, false).
Proof.
  induction l as [|f l IH]; cbn [V2.rangeSleepFields].
  - rewrite decide_False by apply not_elem_of_nil. reflexivity.
  - destruct (decide (k = f)) as [->|Hne].
    + rewrite decide_True by apply list_elem_of_here. reflexivity.
    + rewrite IH. destruct (decide (k ∈ l)) as [Hin|Hnin].
      * rewrite decide_True by (apply list_elem_of_further; exact Hin). reflexivity.
      * rewrite decide_False; [reflexivity|].
        intros Hc. apply elem_of_cons in Hc. destruct Hc; [contradiction|contradiction].
Qed.

(** One turn of the loop over the entries, for an entry other than "date". *)
Lemma rangeDatum_step (m : healthDataMetric) (k : string) (v : any)
    (rest : list (string * any)) (p : Point) :
  k <> "date" ->
  V2.rangeDatum m ((k, v) :: rest) p =
    match transcode m (k, v) with
    | inl f => V2.rangeDatum m rest (AddField f.1 f.2 p)
    | inr err => inr err
    end.
Proof.
  intros Hk. cbn [V2.rangeDatum]. rewrite decide_False by exact Hk.
  unfold transcode. cbn [fst snd].
  destruct (decide (Name m = "sleep_analysis")); [|reflexivity].
  rewrite rangeSleepFields_spec.
  destruct (decide (k ∈ V2.sleepAnalysisDateFields)); [|reflexivity].
  destruct (V2.parseMetricDate v); reflexivity.
Qed.

Lemma rangeDatum_inl (m : healthDataMetric) (kvs : list (string * any)) (p p' : Point) :
  V2.rangeDatum m kvs p = inl p' ->
  exists fs, Forall2 (fun kv f => transcode m kv = inl f) (filter notDate kvs) fs
             /\ p' = addFields fs p.
Proof.
  revert p. induction kvs as [|[k v] kvs IH]; intros p E.
  - simpl in E. injection E as <-. exists []. split; [constructor|].
    symmetry. apply addFields_nil.
  - rewrite filter_cons. unfold notDate at 1. simpl.
    destruct (decide (k = "date")) as [->|Hk].
    + rewrite decide_False by (intros Hn; apply Hn; reflexivity).
      simpl in E. apply IH. exact E.
    + rewrite decide_True by exact Hk.
      rewrite rangeDatum_step in E by exact Hk.
      destruct (transcode m (k, v)) as [[k' v']|err] eqn:Et; [|discriminate].
      destruct (IH _ E) as (fs & Hfs & ->).
      exists ((k', v') :: fs). split.
      * constructor; assumption.
      * apply addFields_AddField.
Qed.


Lemma V2_parse_run (m : healthDataMetric) (datum : gmap string any) (w : world)
    (date : any) (dateTime : Time) :
  datum !! "date" = Some date ->
  V2.parseMetricDate date = inl dateTime ->
  V2.parseMetricDataPoint (Some m) datum w =
    match V2.rangeDatum m (mapiter w datum) (basePoint m dateTime) with
    | inr err => Returned (w ++ [EvMapRange datum]) (Some err)
    | inl p => Returned (w ++ [EvMapRange datum; EvWritePoint p])
                        (influxWriteAPI_WritePoint (w ++ [EvMapRange datum]) p)
    end.
Proof.
  intros Hd Ht. unfold V2.parseMetricDataPoint. rewrite Hd, Ht.
  unfold bind, deref, ret, rangeMap, WritePoint, basePoint. simpl.
  destruct (V2.rangeDatum m _ _); [|reflexivity].
  rewrite <- app_assoc. reflexivity.
Qed.

(** [transcode] keeps the key of an entry. *)
Lemma transcode_key (m : healthDataMetric) (kv f : string * any) :
  transcode m kv = inl f -> f.1 = kv.1.
Proof.
  unfold transcode. intros E.
  destruct (decide (Name m = "sleep_analysis")).
  - destruct (decide (kv.1 ∈ V2.sleepAnalysisDateFields)).
    + destruct (V2.parseMetricDate kv.2); [|discriminate].
      injection E as <-. reflexivity.
    + injection E as <-. reflexivity.
  - injection E as <-. reflexivity.
Qed.


End V2_facts.

(** ** Sleep metrics *)

Section Sleep.
Context `{Env}.


(** C2. [src/main.go] skips a metric named "sleep_analysis" that has data:
    [incomingMetric] returns nil and the world is as before, so none of
    its records was looked at and no point was submitted. *)
Theorem sleep_analysis_skipped (m : healthDataMetric) (w : world) :
  Name m = "sleep_analysis" ->
  Data m <> [] ->
  V1.incomingMetric (Some m) w = Returned w None
  /\ newPoints (V1.incomingMetric (Some m)) w = [].
Proof.
  intros Hname Hdata.
  assert (E : V1.incomingMetric (Some m) w = Returned w None).
  { unfold V1.incomingMetric, bind, deref, ret.
    destruct (Data m) as [|d ds]; [contradiction|]. cbn [length Nat.eqb].
    rewrite decide_True by exact Hname. reflexivity. }
  split; [exact E|]. apply newPoints_same. rewrite E. reflexivity.
Qed.

End Sleep.


Lemma sleep_analysis_skipped_witness :
  @V1.incomingMetric testEnv (Some sleepAnalysis) [] = Returned [] None
  /\ newPoints (@V1.incomingMetric testEnv (Some sleepAnalysis)) [] = [].
Proof.
  apply (@sleep_analysis_skipped testEnv sleepAnalysis []).
  - reflexivity.
  - discriminate.
Defined.

(** ** The "date" of a record *)

Section Date_facts.
Context `{Env}.

Lemma parse_no_date (metric : option healthDataMetric) (datum : gmap string any) (w : world) :
  datum !! "date" = None ->
  V1.parseMetricDataPoint metric datum w = Returned w None
  /\ V2.parseMetricDataPoint metric datum w = Returned w None.
Proof.
  intros Hd. unfold V1.parseMetricDataPoint, V2.parseMetricDataPoint.
  rewrite Hd. split; reflexivity.
Qed.

Lemma parse_bad_date (metric : option healthDataMetric) (datum : gmap string any)
    (w : world) (date : any) :
  datum !! "date" = Some date ->
  (forall s t, date = AString s -> time_Parse dateLayout s <> inl t) ->
  exists err,
    V1.parseMetricDataPoint metric datum w = Returned w (Some err)
    /\ V2.parseMetricDataPoint metric datum w = Returned w (Some err)
    /\ ((forall s, date <> AString s) -> err = errors_New "date must be string").
Proof.
  intros Hd Hbad.
  unfold V1.parseMetricDataPoint, V2.parseMetricDataPoint. rewrite Hd.
  destruct date as [| | |s| | |];
    try (exists (errors_New "date must be string"); repeat split; reflexivity).
  rewrite parseMetricDate_string. change "2006-01-02 15:04:05 -0700" with dateLayout.
  destruct (time_Parse dateLayout s) as [t|err] eqn:Et.
  - exfalso. exact (Hbad s t eq_refl Et).
  - exists err. repeat split. intros Hns. exfalso. exact (Hns s eq_refl).
Qed.

(** A value is a date the program accepts, or it is not. *)
Lemma date_cases (date : any) :
  (exists s t, date = AString s /\ time_Parse dateLayout s = inl t)
  \/ (forall s t, date = AString s -> time_Parse dateLayout s <> inl t).
Proof.
  destruct date as [| | |s| | |]; try (right; intros ? ? ?; discriminate).
  destruct (time_Parse dateLayout s) as [t|err] eqn:Et.
  - left. eauto.
  - right. intros s' t' Hs. injection Hs as <-. rewrite Et. discriminate.
Qed.

End Date_facts.

Section Dates.
Context `{Env}.

(** C5. A record without a "date" key: [parseMetricDataPoint] returns nil
    and leaves the world as it was, in both versions and whatever the
    metric; nothing is submitted to the write API. *)
Theorem record_without_date_is_skipped (metric : option healthDataMetric)
    (datum : gmap string any) (w : world) :
  datum !! "date" = None ->
  V1.parseMetricDataPoint metric datum w = Returned w None
  /\ V2.parseMetricDataPoint metric datum w = Returned w None
  /\ newPoints (V1.parseMetricDataPoint metric datum) w = []
  /\ newPoints (V2.parseMetricDataPoint metric datum) w = [].
Proof.
  intros Hd. destruct (parse_no_date metric datum w Hd) as [E1 E2].
  repeat split; try assumption; apply newPoints_same.
  - rewrite E1. reflexivity.
  - rewrite E2. reflexivity.
Qed.

(** C6. A record whose "date" is there but is no string, or is a string
    that [time.Parse] refuses for the layout: [parseMetricDataPoint]
    returns an error (the same in both versions; "date must be string"
    when the value is no string) and leaves the world as it was, so no
    point is submitted for the record. *)
Theorem record_with_bad_date_fails (metric : option healthDataMetric)
    (datum : gmap string any) (w : world) (date : any) :
  datum !! "date" = Some date ->
  (forall s t, date = AString s -> time_Parse dateLayout s <> inl t) ->
  exists err,
    V1.parseMetricDataPoint metric datum w = Returned w (Some err)
    /\ V2.parseMetricDataPoint metric datum w = Returned w (Some err)
    /\ ((forall s, date <> AString s) -> err = errors_New "date must be string")
    /\ newPoints (V1.parseMetricDataPoint metric datum) w = []
    /\ newPoints (V2.parseMetricDataPoint metric datum) w = [].
Proof.
  intros Hd Hbad.
  destruct (parse_bad_date metric datum w date Hd Hbad) as (err & E1 & E2 & Hmsg).
  exists err. repeat split; try assumption; apply newPoints_same.
  - rewrite E1. reflexivity.
  - rewrite E2. reflexivity.
Qed.

End Dates.

Lemma record_without_date_is_skipped_witness :
  @V1.parseMetricDataPoint testEnv (Some heartRate) datelessDatum [] = Returned [] None
  /\ @V2.parseMetricDataPoint testEnv (Some heartRate) datelessDatum [] = Returned [] None
  /\ newPoints (@V1.parseMetricDataPoint testEnv (Some heartRate) datelessDatum) [] = []
  /\ newPoints (@V2.parseMetricDataPoint testEnv (Some heartRate) datelessDatum) [] = [].
Proof.
  apply (@record_without_date_is_skipped testEnv (Some heartRate) datelessDatum []).
  vm_compute. reflexivity.
Defined.

Lemma record_with_bad_date_fails_witness :
  exists err,
    @V1.parseMetricDataPoint testEnv (Some heartRate) numericDateDatum [] = Returned [] (Some err)
    /\ @V2.parseMetricDataPoint testEnv (Some heartRate) numericDateDatum [] = Returned [] (Some err)
    /\ ((forall s, AFloat64 float64_72 <> AString s) -> err = errors_New "date must be string")
    /\ newPoints (@V1.parseMetricDataPoint testEnv (Some heartRate) numericDateDatum) [] = []
    /\ newPoints (@V2.parseMetricDataPoint testEnv (Some heartRate) numericDateDatum) [] = [].
Proof.
  apply (@record_with_bad_date_fails testEnv (Some heartRate) numericDateDatum []
           (AFloat64 float64_72)).
  - vm_compute. reflexivity.
  - intros s t Hs. discriminate Hs.
Defined.

(** ** The shape of a submitted point *)

Section Runs.
Context `{Env}.

Lemma filter_notDate_no_date (kvs : list (string * any)) (x : any) :
  ("date", x) ∉ filter notDate kvs.
Proof.
  intros Hin. apply list_elem_of_filter in Hin. destruct Hin as [Hn _].
  apply Hn. reflexivity.
Qed.

(** A run of [V1.parseMetricDataPoint] on a metric: it returns, the trace
    grows, and what it submits are points of the record. *)
Lemma V1_parse_shape (m : healthDataMetric) (datum : gmap string any) (w : world) :
  exists evs r,
    V1.parseMetricDataPoint (Some m) datum w = Returned (w ++ evs) r
    /\ Forall (pointOf m datum) (points evs).
Proof.
  destruct (datum !! "date") as [date|] eqn:Hd.
  - destruct (date_cases date) as [(s & t & -> & Ht)|Hbad].
    + rewrite (V1_parse_run m datum w s t Hd Ht). cbv zeta.
      eexists _, _. split; [reflexivity|].
      cbn [points]. repeat constructor; cbn.
      * exists s. split; assumption.
      * intros x. apply filter_notDate_no_date.
    + destruct (parse_bad_date (Some m) datum w date Hd Hbad) as (err & E1 & _).
      exists [], (Some err). rewrite app_nil_r. split; [exact E1|constructor].
  - destruct (parse_no_date (Some m) datum w Hd) as (E1 & _).
    exists [], None. rewrite app_nil_r. split; [exact E1|constructor].
Qed.

Lemma V2_parse_shape (m : healthDataMetric) (datum : gmap string any) (w : world) :
  exists evs r,
    V2.parseMetricDataPoint (Some m) datum w = Returned (w ++ evs) r
    /\ Forall (pointOf m datum) (points evs).
Proof.
  destruct (datum !! "date") as [date|] eqn:Hd.
  - destruct (date_cases date) as [(s & t & -> & Ht)|Hbad].
    + rewrite (V2_parse_run m datum w (AString s) t Hd)
        by (rewrite parseMetricDate_string; exact Ht).
      destruct (V2.rangeDatum m (mapiter w datum) (basePoint m t)) as [p|err] eqn:Hp.
      * eexists _, _. split; [reflexivity|].
        destruct (rangeDatum_inl _ _ _ _ Hp) as (fs & Hfs & ->).
        cbn [points]. repeat constructor; cbn.
        -- exists s. split; assumption.
        -- intros x Hin. apply list_elem_of_lookup in Hin. destruct Hin as [i Hi].
           destruct (Forall2_lookup_r _ _ _ _ _ Hfs Hi) as (kv & Hkv & Ht').
           apply transcode_key in Ht'. cbn [fst] in Ht'.
           assert (Hin : kv ∈ filter notDate (mapiter w datum))
             by (apply list_elem_of_lookup; eauto).
           apply list_elem_of_filter in Hin. destruct Hin as [Hn _].
           apply Hn. symmetry. exact Ht'.
      * eexists _, _. split; [reflexivity|]. constructor.
    + destruct (parse_bad_date (Some m) datum w date Hd Hbad) as (err & _ & E2 & _).
      exists [], (Some err). rewrite app_nil_r. split; [exact E2|constructor].
  - destruct (parse_no_date (Some m) datum w Hd) as (_ & E2).
    exists [], None. rewrite app_nil_r. split; [exact E2|constructor].
Qed.

End Runs.

(** ** The loop over the records of a metric *)

Section Loop.
Variable parse : gmap string any -> M (option error).
Variable loop : list (gmap string any) -> M (option error).
Variable P : gmap string any -> Point -> Prop.

Hypothesis loop_nil : forall w, loop [] w = Returned w None.
Hypothesis loop_cons : forall datum rest w,
  loop (datum :: rest) w =
    match parse datum w with
    | Returned w' (Some e) => Returned w' (Some e)
    | Returned w' None => loop rest w'
    | Panicked w' => Panicked w'
    end.
Hypothesis parse_shape : forall datum w,
  exists evs r, parse datum w = Returned (w ++ evs) r /\ Forall (P datum) (points evs).

(** The loop stops at the first record that returns an error, and
    otherwise goes through all of them. *)
Lemma loop_fail_fast (data : list (gmap string any)) (w : world) :
  (exists w', Processed parse w data w' /\ loop data w = Returned w' None)
  \/ (exists pre datum post w1 w2 err,
        data = pre ++ datum :: post
        /\ Processed parse w pre w1
        /\ parse datum w1 = Returned w2 (Some err)
        /\ loop data w = Returned w2 (Some err)).
Proof.
  revert w. induction data as [|datum rest IH]; intros w.
  - left. exists w. split; [constructor|apply loop_nil].
  - rewrite loop_cons.
    destruct (parse_shape datum w) as (evs & r & Hrun & _).
    rewrite Hrun. destruct r as [err|].
    + right. exists [], datum, rest, w, (w ++ evs), err.
      repeat split; [constructor|exact Hrun].
    + destruct (IH (w ++ evs)) as [(w' & Hproc & Hloop)
                                  |(pre & d & post & w1 & w2 & err & -> & Hproc & Hd & Hloop)].
      * left. exists w'. split; [|exact Hloop].
        econstructor; eassumption.
      * right. exists (datum :: pre), d, post, w1, w2, err.
        repeat split; try assumption.
        econstructor; eassumption.
Qed.

(** What the loop submits was submitted for one of the records. *)
Lemma loop_shape (data : list (gmap string any)) (w : world) :
  exists evs r,
    loop data w = Returned (w ++ evs) r
    /\ Forall (fun p => exists datum, datum ∈ data /\ P datum p) (points evs).
Proof.
  revert w. induction data as [|datum rest IH]; intros w.
  - exists [], None. rewrite app_nil_r, loop_nil. split; [reflexivity|constructor].
  - rewrite loop_cons.
    destruct (parse_shape datum w) as (evs & r & Hrun & Hpts).
    rewrite Hrun.
    assert (Hhere : Forall (fun p => exists d, d ∈ datum :: rest /\ P d p) (points evs)).
    { eapply Forall_impl; [exact Hpts|]. intros p Hp. exists datum.
      split; [apply list_elem_of_here|exact Hp]. }
    destruct r as [err|].
    + exists evs, (Some err). split; [reflexivity|exact Hhere].
    + destruct (IH (w ++ evs)) as (evs' & r' & Hloop & Hpts').
      exists (evs ++ evs'), r'. rewrite Hloop, app_assoc. split; [reflexivity|].
      rewrite points_app. apply Forall_app. split; [exact Hhere|].
      eapply Forall_impl; [exact Hpts'|]. intros p (d & Hd & Hp). exists d.
      split; [apply list_elem_of_further; exact Hd|exact Hp].
Qed.

End Loop.

Section Metric_facts.
Context `{Env}.

Lemma V2_rangeData_cons (metric : option healthDataMetric) (datum : gmap string any)
    (rest : list (gmap string any)) (w : world) :
  V2.rangeData metric (datum :: rest) w =
    match V2.parseMetricDataPoint metric datum w with
    | Returned w' (Some e) => Returned w' (Some e)
    | Returned w' None => V2.rangeData metric rest w'
    | Panicked w' => Panicked w'
    end.
Proof.
  cbn [V2.rangeData]. unfold bind, ret.
  destruct (V2.parseMetricDataPoint metric datum w) as [w' [e|]|w']; reflexivity.
Qed.

Lemma V1_rangeData_cons (metric : option healthDataMetric) (datum : gmap string any)
    (rest : list (gmap string any)) (w : world) :
  V1.rangeData metric (datum :: rest) w =
    match V1.parseMetricDataPoint metric datum w with
    | Returned w' (Some e) => Returned w' (Some e)
    | Returned w' None => V1.rangeData metric rest w'
    | Panicked w' => Panicked w'
    end.
Proof.
  cbn [V1.rangeData]. unfold bind, ret.
  destruct (V1.parseMetricDataPoint metric datum w) as [w' [e|]|w']; reflexivity.
Qed.

(** [len(metric.Data) == 0] is the loop over no record. *)
Lemma V2_incomingMetric_loop (m : healthDataMetric) (w : world) :
  V2.incomingMetric (Some m) w = V2.rangeData (Some m) (Data m) w.
Proof.
  unfold V2.incomingMetric, bind, deref, ret.
  destruct (Data m); reflexivity.
Qed.

Lemma V1_incomingMetric_loop (m : healthDataMetric) (w : world) :
  Name m <> "sleep_analysis" ->
  V1.incomingMetric (Some m) w = V1.rangeData (Some m) (Data m) w.
Proof.
  intros Hname. unfold V1.incomingMetric, bind, deref, ret.
  destruct (Data m); [reflexivity|]. cbn [length Nat.eqb].
  rewrite decide_False by exact Hname. reflexivity.
Qed.

(** A run of [incomingMetric] on a metric: it returns, the trace grows,
    and what it submits are points of records of the metric. *)
Lemma V2_incomingMetric_shape (m : healthDataMetric) (w : world) :
  exists evs r,
    V2.incomingMetric (Some m) w = Returned (w ++ evs) r
    /\ Forall (fun p => exists datum, datum ∈ Data m /\ pointOf m datum p) (points evs).
Proof.
  rewrite V2_incomingMetric_loop.
  apply (loop_shape (V2.parseMetricDataPoint (Some m)) (V2.rangeData (Some m)) (pointOf m)).
  - reflexivity.
  - apply V2_rangeData_cons.
  - apply V2_parse_shape.
Qed.

Lemma V1_incomingMetric_shape (m : healthDataMetric) (w : world) :
  exists evs r,
    V1.incomingMetric (Some m) w = Returned (w ++ evs) r
    /\ Forall (fun p => exists datum, datum ∈ Data m /\ pointOf m datum p) (points evs).
Proof.
  destruct (decide (Name m = "sleep_analysis")) as [Hs|Hs].
  - exists [], None. rewrite app_nil_r. split; [|constructor].
    unfold V1.incomingMetric, bind, deref, ret.
    destruct (Data m); [reflexivity|]. cbn [length Nat.eqb].
    rewrite decide_True by exact Hs. reflexivity.
  - rewrite V1_incomingMetric_loop by exact Hs.
    apply (loop_shape (V1.parseMetricDataPoint (Some m)) (V1.rangeData (Some m)) (pointOf m)).
    + reflexivity.
    + apply V1_rangeData_cons.
    + apply V1_parse_shape.
Qed.

(** The points of a run that returned [w ++ evs]. *)
Lemma elem_of_newPoints {A} (c : M A) (w evs : world) (r : A) (p : Point) :
  c w = Returned (w ++ evs) r -> p ∈ newPoints c w -> p ∈ points evs.
Proof.
  intros E Hin. rewrite (newPoints_app c w evs) in Hin; [exact Hin|].
  rewrite E. reflexivity.
Qed.

End Metric_facts.

Section Points.
Context `{Env}.

(** C7. Whatever [parseMetricDataPoint] submits for a record of a metric,
    and so whatever [incomingMetric] submits for a metric, in both
    versions: a point whose measurement is "apple_health_" followed by the
    name of the metric, whose one timestamp is the parsed "date" of the
    record, whose tags are the one tag "units" with the units of the
    metric, and which has no field named "date". *)
Theorem submitted_points_are_well_formed (m : healthDataMetric) (w : world) (p : Point) :
  (forall datum,
      p ∈ newPoints (V1.parseMetricDataPoint (Some m) datum) w
      \/ p ∈ newPoints (V2.parseMetricDataPoint (Some m) datum) w ->
      measurement p = "apple_health_" +:+ Name m
      /\ (exists s, datum !! "date" = Some (AString s)
                    /\ time_Parse dateLayout s = inl (timestamp p))
      /\ tags p = [("units", Units m)]
      /\ (forall x, ("date", x) ∉ fields p))
  /\ (p ∈ newPoints (V1.incomingMetric (Some m)) w
      \/ p ∈ newPoints (V2.incomingMetric (Some m)) w ->
      exists datum, datum ∈ Data m /\ pointOf m datum p).
Proof.
  split.
  - intros datum [Hin|Hin].
    + destruct (V1_parse_shape m datum w) as (evs & r & Hrun & Hpts).
      apply (elem_of_newPoints _ _ _ _ _ Hrun) in Hin.
      exact (proj1 (Forall_forall _ _) Hpts p Hin).
    + destruct (V2_parse_shape m datum w) as (evs & r & Hrun & Hpts).
      apply (elem_of_newPoints _ _ _ _ _ Hrun) in Hin.
      exact (proj1 (Forall_forall _ _) Hpts p Hin).
  - intros [Hin|Hin].
    + destruct (V1_incomingMetric_shape m w) as (evs & r & Hrun & Hpts).
      apply (elem_of_newPoints _ _ _ _ _ Hrun) in Hin.
      exact (proj1 (Forall_forall _ _) Hpts p Hin).
    + destruct (V2_incomingMetric_shape m w) as (evs & r & Hrun & Hpts).
      apply (elem_of_newPoints _ _ _ _ _ Hrun) in Hin.
      exact (proj1 (Forall_forall _ _) Hpts p Hin).
Qed.


End Points.

(** ** The two versions on metrics other than sleep *)

Section Agreement.
Context `{Env}.

Lemma V2_rangeDatum_plain (m : healthDataMetric) (kvs : list (string * any)) (p : Point) :
  Name m <> "sleep_analysis" ->
  V2.rangeDatum m kvs p = inl (V1.rangeDatum kvs p).
Proof.
  intros Hname. revert p. induction kvs as [|[k v] kvs IH]; intros p.
  - reflexivity.
  - cbn [V2.rangeDatum V1.rangeDatum].
    destruct (decide (k = "date")); [apply IH|].
    rewrite decide_False by exact Hname. apply IH.
Qed.

Lemma parseMetricDataPoint_agree (m : healthDataMetric) (datum : gmap string any) (w : world) :
  Name m <> "sleep_analysis" ->
  V2.parseMetricDataPoint (Some m) datum w = V1.parseMetricDataPoint (Some m) datum w.
Proof.
  intros Hname. unfold V2.parseMetricDataPoint, V1.parseMetricDataPoint.
  destruct (datum !! "date") as [date|]; [|reflexivity].
  destruct date as [| | |s| | |]; try reflexivity.
  cbn [V2.parseMetricDate].
  destruct (time_Parse "2006-01-02 15:04:05 -0700" s) as [t|err]; [|reflexivity].
  unfold bind, deref, ret, rangeMap. 
  rewrite V2_rangeDatum_plain by exact Hname. reflexivity.
Qed.

Lemma rangeData_agree (m : healthDataMetric) (data : list (gmap string any)) (w : world) :
  Name m <> "sleep_analysis" ->
  V2.rangeData (Some m) data w = V1.rangeData (Some m) data w.
Proof.
  intros Hname. revert w. induction data as [|datum rest IH]; intros w.
  - reflexivity.
  - rewrite V2_rangeData_cons, V1_rangeData_cons, parseMetricDataPoint_agree by exact Hname.
    destruct (V1.parseMetricDataPoint (Some m) datum w) as [w' [e|]|w']; auto.
Qed.

(** On a metric that is not named "sleep_analysis" the two versions of
    [incomingMetric] do the same. *)
Lemma incomingMetric_agree (m : healthDataMetric) (w : world) :
  Name m <> "sleep_analysis" ->
  V2.incomingMetric (Some m) w = V1.incomingMetric (Some m) w.
Proof.
  intros Hname.
  rewrite V2_incomingMetric_loop, V1_incomingMetric_loop by exact Hname.
  apply rangeData_agree. exact Hname.
Qed.


End Agreement.




Section Round_trip.
Context `{Env}.


End Round_trip.


(** ** The handler *)

Section Handler_facts.
Context `{Env}.
Variable incomingMetric : option healthDataMetric -> M (option error).

Hypothesis incomingMetric_returns : forall m w,
  exists w' r, incomingMetric (Some m) w = Returned w' r.

(** Over metrics none of which is nil the loop of the handler calls
    [incomingMetric] on each, in order, and remembers whether one
    failed. *)
Lemma rangeMetrics_all (metrics : list (option healthDataMetric)) (hasErrors : bool) (w : world) :
  Forall is_Some metrics ->
  exists rs w',
    Dispatched incomingMetric w metrics rs w'
    /\ length rs = length metrics
    /\ rangeMetrics incomingMetric metrics hasErrors w
       = Returned w' (hasErrors || existsb isError rs).
Proof.
  revert hasErrors w. induction metrics as [|metric rest IH]; intros hasErrors w Hall.
  - exists [], w. split; [constructor|]. split; [reflexivity|].
    cbn. rewrite orb_false_r. reflexivity.
  - apply Forall_cons in Hall. destruct Hall as [[m ->] Hall].
    destruct (incomingMetric_returns m w) as (w1 & r & Hrun).
    cbn [rangeMetrics]. unfold bind. rewrite Hrun.
    destruct r as [e|].
    + destruct (IH true w1 Hall) as (rs & w' & Hd & Hlen & Hloop).
      exists (Some e :: rs), w'. split; [econstructor; eassumption|].
      split; [cbn; rewrite Hlen; reflexivity|].
      rewrite Hloop. cbn. rewrite orb_true_r. reflexivity.
    + destruct (IH hasErrors w1 Hall) as (rs & w' & Hd & Hlen & Hloop).
      exists (None :: rs), w'. split; [econstructor; eassumption|].
      split; [cbn; rewrite Hlen; reflexivity|].
      rewrite Hloop. reflexivity.
Qed.

(** A request that passes the checks and decodes to a payload. *)
Lemma handleDataPayloadWith_payload (rw : ResponseWriter) (r : Request) (w : world)
    (bdbs : string) (payload : healthDataPayload) :
  Method r = "POST" ->
  Header_Get (Header r) "Authorization" = authenticationToken ->
  Body r = inl bdbs ->
  json_Unmarshal bdbs = inl payload ->
  handleDataPayloadWith incomingMetric rw r w =
    match rangeMetrics incomingMetric (Metrics payload) false
            (w ++ [EvReadAll; EvUnmarshal bdbs; EvWriteFile "payload.json" bdbs]) with
    | Returned w' hasErrors => Returned w' (if hasErrors then WriteHeader 500 rw else rw)
    | Panicked w' => Panicked w'
    end.
Proof.
  intros Hm Ha Hb Hj. unfold handleDataPayloadWith.
  rewrite bool_decide_true by exact Hm. rewrite bool_decide_true by exact Ha.
  cbn [negb]. rewrite Hb, Hj. unfold bind, emit, ret.
  rewrite <- !app_assoc. cbn [app].
  destruct (rangeMetrics _ _ _ _) as [w' [|]|w']; reflexivity.
Qed.

(** A request whose Authorization header is not the secret. *)
Lemma handleDataPayloadWith_forbidden (rw : ResponseWriter) (r : Request) (w : world) :
  Header_Get (Header r) "Authorization" <> authenticationToken ->
  handleDataPayloadWith incomingMetric rw r w =
    Returned w (if bool_decide (Method r = "POST")
                then Write "missing or invalid Authorization header"
                       (WriteHeader StatusForbidden rw)
                else WriteHeader StatusMethodNotAllowed rw).
Proof.
  intros Ha. unfold handleDataPayloadWith.
  destruct (bool_decide (Method r = "POST")); [|reflexivity].
  rewrite bool_decide_false by exact Ha. reflexivity.
Qed.

End Handler_facts.

Section Handler_claims.
Context `{Env}.

Lemma V1_incomingMetric_returns (m : healthDataMetric) (w : world) :
  exists w' r, V1.incomingMetric (Some m) w = Returned w' r.
Proof. destruct (V1_incomingMetric_shape m w) as (evs & r & E & _). eauto. Qed.

Lemma V2_incomingMetric_returns (m : healthDataMetric) (w : world) :
  exists w' r, V2.incomingMetric (Some m) w = Returned w' r.
Proof. destruct (V2_incomingMetric_shape m w) as (evs & r & E & _). eauto. Qed.

(** X1. The handler on a payload without a nil metric, in both versions:
    every metric is handed to [incomingMetric], in the order of the
    array and whether or not an earlier one failed; the response is 500
    with an empty body when one of them returned an error and the
    untouched 200 with an empty body when none did. *)
Theorem metric_errors_are_accumulated (r : Request) (w : world) (bdbs : string)
    (payload : healthDataPayload) :
  Method r = "POST" ->
  Header_Get (Header r) "Authorization" = authenticationToken ->
  Body r = inl bdbs ->
  json_Unmarshal bdbs = inl payload ->
  Forall is_Some (Metrics payload) ->
  let w0 := w ++ [EvReadAll; EvUnmarshal bdbs; EvWriteFile "payload.json" bdbs] in
  (exists rs w' rw,
      Dispatched V1.incomingMetric w0 (Metrics payload) rs w'
      /\ length rs = length (Metrics payload)
      /\ V1.handleDataPayload newResponseWriter r w = Returned w' rw
      /\ written rw = ""
      /\ statusCode rw = (if existsb isError rs then 500 else 200))
  /\ (exists rs w' rw,
      Dispatched V2.incomingMetric w0 (Metrics payload) rs w'
      /\ length rs = length (Metrics payload)
      /\ V2.handleDataPayload newResponseWriter r w = Returned w' rw
      /\ written rw = ""
      /\ statusCode rw = (if existsb isError rs then 500 else 200)).
Proof.
  intros Hm Ha Hb Hj Hall w0. split.
  - destruct (rangeMetrics_all V1.incomingMetric V1_incomingMetric_returns
                (Metrics payload) false w0 Hall) as (rs & w' & Hd & Hlen & Hloop).
    exists rs, w'. eexists. split; [exact Hd|]. split; [exact Hlen|].
    unfold V1.handleDataPayload.
    rewrite (handleDataPayloadWith_payload _ _ _ _ _ _ Hm Ha Hb Hj).
    fold w0. rewrite Hloop. cbn [orb]. split; [reflexivity|].
    destruct (existsb isError rs); split; reflexivity.
  - destruct (rangeMetrics_all V2.incomingMetric V2_incomingMetric_returns
                (Metrics payload) false w0 Hall) as (rs & w' & Hd & Hlen & Hloop).
    exists rs, w'. eexists. split; [exact Hd|]. split; [exact Hlen|].
    unfold V2.handleDataPayload.
    rewrite (handleDataPayloadWith_payload _ _ _ _ _ _ Hm Ha Hb Hj).
    fold w0. rewrite Hloop. cbn [orb]. split; [reflexivity|].
    destruct (existsb isError rs); split; reflexivity.
Qed.

(** A nil pointer among the metrics, whatever the environment: the
    handler panics when it reaches it, having read and decoded the body
    and written the debug file; the metrics after it are not looked at. *)
Lemma nil_metric_panics (r : Request) (w : world) (bdbs : string)
    (payload : healthDataPayload) (rest : list (option healthDataMetric)) :
  Method r = "POST" ->
  Header_Get (Header r) "Authorization" = authenticationToken ->
  Body r = inl bdbs ->
  json_Unmarshal bdbs = inl payload ->
  Metrics payload = None :: rest ->
  let w0 := w ++ [EvReadAll; EvUnmarshal bdbs; EvWriteFile "payload.json" bdbs] in
  V1.handleDataPayload newResponseWriter r w = Panicked w0
  /\ V2.handleDataPayload newResponseWriter r w = Panicked w0.
Proof.
  intros Hm Ha Hb Hj Hnil w0. unfold V1.handleDataPayload, V2.handleDataPayload.
  rewrite !(handleDataPayloadWith_payload _ _ _ _ _ _ Hm Ha Hb Hj), Hnil.
  split; reflexivity.
Qed.

(** C9, as amended.  A request whose Authorization header (the empty
    string when the header is absent) is not the configured secret leaves
    the world as it was, whatever its method and body: the body is not
    read, nothing is decoded, no point is submitted.  When the method is
    POST the response is 403 with the body "missing or invalid
    Authorization header". *)
Theorem forbidden_without_the_secret (r : Request) (w : world) :
  Header_Get (Header r) "Authorization" <> authenticationToken ->
  (exists rw,
      V1.handleDataPayload newResponseWriter r w = Returned w rw
      /\ V2.handleDataPayload newResponseWriter r w = Returned w rw
      /\ (Method r = "POST" ->
          statusCode rw = 403 /\ written rw = "missing or invalid Authorization header"))
  /\ newPoints (V1.handleDataPayload newResponseWriter r) w = []
  /\ newPoints (V2.handleDataPayload newResponseWriter r) w = [].
Proof.
  intros Ha.
  pose proof (handleDataPayloadWith_forbidden V1.incomingMetric newResponseWriter r w Ha) as E1.
  pose proof (handleDataPayloadWith_forbidden V2.incomingMetric newResponseWriter r w Ha) as E2.
  fold V1.handleDataPayload in E1. fold V2.handleDataPayload in E2.
  split; [|split].
  - eexists. split; [exact E1|]. split; [exact E2|].
    intros Hm. rewrite bool_decide_true by exact Hm. split; reflexivity.
  - apply newPoints_same. rewrite E1. reflexivity.
  - apply newPoints_same. rewrite E2. reflexivity.
Qed.

End Handler_claims.

Lemma metric_errors_are_accumulated_witness :
  exists rs w' rw,
    Dispatched (@V2.incomingMetric testEnv)
      [EvReadAll; EvUnmarshal mixedBody; EvWriteFile "payload.json" mixedBody]
      [Some stepCount; Some heartRate] rs w'
    /\ length rs = 2
    /\ @V2.handleDataPayload testEnv newResponseWriter (authorized mixedBody) []
       = Returned w' rw
    /\ written rw = ""
    /\ statusCode rw = (if existsb isError rs then 500 else 200).
Proof.
  apply (@metric_errors_are_accumulated testEnv (authorized mixedBody) [] mixedBody mixedPayload).
  - reflexivity.
  - vm_compute. reflexivity.
  - reflexivity.
  - vm_compute. reflexivity.
  - repeat constructor; eexists; reflexivity.
Defined.

(** The request of the spec's last testable property: the first metric
    fails, the second is still written, the response is 500. *)
Example one_metric_fails_the_other_is_written :
  @V2.handleDataPayload testEnv newResponseWriter (authorized mixedBody) []
  = Returned [EvReadAll; EvUnmarshal mixedBody; EvWriteFile "payload.json" mixedBody;
              EvMapRange heartRateDatum; EvWritePoint heartRatePoint]
             (mkResponse (Some 500) "").
Proof. vm_compute. reflexivity. Qed.

(** C3, where the code departs from it.  The body
    [{"data":{"metrics":[null,{"name":"heart_rate",...}]}}] decodes to a
    payload whose first metric is a nil pointer.  [incomingMetric]
    dereferences it and panics: the handler, in both versions, ends
    without a response of its own right after the debug file was written,
    and the metric after the null one is never handed to
    [incomingMetric], although on its own it is processed and its point
    written. *)
Theorem null_metric_aborts_the_request :
  let w0 := [EvReadAll; EvUnmarshal nullMetricBody; EvWriteFile "payload.json" nullMetricBody] in
  @json_Unmarshal testEnv nullMetricBody = inl (mkPayload [] [None; Some heartRate])
  /\ @V1.handleDataPayload testEnv newResponseWriter (authorized nullMetricBody) []
     = Panicked w0
  /\ @V2.handleDataPayload testEnv newResponseWriter (authorized nullMetricBody) []
     = Panicked w0
  /\ points w0 = []
  /\ @V2.incomingMetric testEnv (Some heartRate) w0
     = Returned (w0 ++ [EvMapRange heartRateDatum; EvWritePoint heartRatePoint]) None.
Proof. vm_compute. repeat split; reflexivity. Qed.

(** C9 as it is stated fails on a request that is no POST: the method is
    checked before the header, and the response is 405 with no body. *)
Lemma forbidden_is_not_for_every_request :
  Header_Get (Header unauthorizedGet) "Authorization" <> @authenticationToken testEnv
  /\ @V1.handleDataPayload testEnv newResponseWriter unauthorizedGet []
     = Returned [] (mkResponse (Some 405) "")
  /\ @V2.handleDataPayload testEnv newResponseWriter unauthorizedGet []
     = Returned [] (mkResponse (Some 405) "")
  /\ statusCode (mkResponse (Some 405) "") <> 403.
Proof. vm_compute. repeat split; try reflexivity; discriminate. Qed.

Lemma forbidden_without_the_secret_witness :
  (exists rw,
      @V1.handleDataPayload testEnv newResponseWriter unauthorizedPost [] = Returned [] rw
      /\ @V2.handleDataPayload testEnv newResponseWriter unauthorizedPost [] = Returned [] rw
      /\ (Method unauthorizedPost = "POST" ->
          statusCode rw = 403 /\ written rw = "missing or invalid Authorization header"))
  /\ newPoints (@V1.handleDataPayload testEnv newResponseWriter unauthorizedPost) [] = []
  /\ newPoints (@V2.handleDataPayload testEnv newResponseWriter unauthorizedPost) [] = [].
Proof.
  apply (@forbidden_without_the_secret testEnv unauthorizedPost []).
  vm_compute. discriminate.
Defined.

(** ** Startup *)

(** C10, as amended.  [main], in both versions, ends in [log.Fatal] when
    the time-series token is not supplied or empty, and when the
    organization is; with a token, an organization and a bucket it
    serves.  When it serves, the listen address, the host of the
    time-series store and the shared secret are the flags given or their
    defaults 0.0.0.0:8082, localhost:8086 and supersecret. *)
Theorem startup_requirements (args : gmap string string) :
  (flag_String args "influxdb-token" "" = "" ->
     V1.main args = Fatal "You must supply an InfluxDB 2 token"
     /\ V2.main args = Fatal "You must supply an InfluxDB 2 token")
  /\ (flag_String args "influxdb-token" "" <> "" ->
      flag_String args "influxdb-org" "" = "" ->
        V1.main args = Fatal "You must supply an InfluxDB 2 organization"
        /\ V2.main args = Fatal "You must supply an InfluxDB 2 organization")
  /\ (flag_String args "influxdb-token" "" <> "" ->
      flag_String args "influxdb-org" "" <> "" ->
      flag_String args "influxdb-bucket" "" <> "" ->
        exists s1 s2, V1.main args = ListenAndServe s1 /\ V2.main args = ListenAndServe s2)
  /\ (forall s, V1.main args = ListenAndServe s \/ V2.main args = ListenAndServe s ->
        listenAddr s = default "0.0.0.0:8082" (args !! "listen")
        /\ sharedSecret s = default "supersecret" (args !! "auth-token")
        /\ (serverURL s = "http://" +:+ default "localhost:8086" (args !! "influxdb-host")
            \/ serverURL s = default "localhost:8086" (args !! "influxdb-host"))
        /\ clientToken s <> "" /\ writeOrg s <> "").
Proof.
  unfold V1.main, V2.main, mainWith.
  destruct (decide (flag_String args "influxdb-token" "" = "")) as [Ht|Ht];
    [|destruct (decide (flag_String args "influxdb-org" "" = "")) as [Ho|Ho]].
  - split; [intros _; split; reflexivity|].
    split; [intros Hc; contradiction|].
    split; [intros Hc; contradiction|].
    intros s [E|E]; discriminate E.
  - split; [intros Hc; contradiction|].
    split; [intros _ _; split; reflexivity|].
    split; [intros _ Hc; contradiction|].
    intros s [E|E]; discriminate E.
  - split; [intros Hc; contradiction|].
    split; [intros _ Hc; contradiction|].
    split; [intros _ _ _; eauto|].
    intros s [E|E]; injection E as <-; cbn; unfold flag_String; auto 6.
Qed.

(** C10 as it is stated fails: without the flag auth-token the program
    starts, with the secret "supersecret". *)
Lemma shared_secret_has_a_default :
  let args : gmap string string :=
    <["influxdb-token" := "t0ken"]> (<["influxdb-org" := "home"]>
      (<["influxdb-bucket" := "health"]> ∅)) in
  args !! "auth-token" = None
  /\ V1.main args = ListenAndServe
       (mkSettings "http://localhost:8086" "t0ken" "home" "health" "0.0.0.0:8082" "supersecret")
  /\ V2.main args = ListenAndServe
       (mkSettings "localhost:8086" "t0ken" "home" "health" "0.0.0.0:8082" "supersecret").
Proof. vm_compute. repeat split; reflexivity. Qed.

(** ** [src/main.go] on metrics other than sleep *)

Section Versions.
Context `{Env}.

(** X2. On a metric that is not named "sleep_analysis" the two versions
    do the same, record by record and for the metric as a whole. *)
Theorem versions_agree_on_other_metrics (m : healthDataMetric) (w : world) :
  Name m <> "sleep_analysis" ->
  (forall datum,
      V1.parseMetricDataPoint (Some m) datum w = V2.parseMetricDataPoint (Some m) datum w)
  /\ V1.incomingMetric (Some m) w = V2.incomingMetric (Some m) w.
Proof.
  intros Hname. split.
  - intros datum. symmetry. apply parseMetricDataPoint_agree. exact Hname.
  - symmetry. apply incomingMetric_agree. exact Hname.
Qed.

(** X3. [incomingMetric] of [src/main.go] on a metric that is not named
    "sleep_analysis": all records return nil and so does the metric, or
    the first record that returns an error ends the loop, the metric
    returns that error and the records after it are not processed. *)
Theorem main_go_records_fail_fast (m : healthDataMetric) (w : world) :
  Name m <> "sleep_analysis" ->
  (exists w',
      Processed (V1.parseMetricDataPoint (Some m)) w (Data m) w'
      /\ V1.incomingMetric (Some m) w = Returned w' None)
  \/ (exists pre datum post w1 w2 err,
        Data m = pre ++ datum :: post
        /\ Processed (V1.parseMetricDataPoint (Some m)) w pre w1
        /\ V1.parseMetricDataPoint (Some m) datum w1 = Returned w2 (Some err)
        /\ V1.incomingMetric (Some m) w = Returned w2 (Some err)).
Proof.
  intros Hname. rewrite V1_incomingMetric_loop by exact Hname.
  apply (loop_fail_fast (V1.parseMetricDataPoint (Some m)) (V1.rangeData (Some m))
           (pointOf m)).
  - reflexivity.
  - apply V1_rangeData_cons.
  - apply V1_parse_shape.
Qed.

End Versions.

Lemma versions_agree_on_other_metrics_witness :
  (forall datum,
      @V1.parseMetricDataPoint testEnv (Some heartRate) datum []
      = @V2.parseMetricDataPoint testEnv (Some heartRate) datum [])
  /\ @V1.incomingMetric testEnv (Some heartRate) []
     = @V2.incomingMetric testEnv (Some heartRate) [].
Proof.
  apply (@versions_agree_on_other_metrics testEnv heartRate []).
  discriminate.
Defined.

Lemma main_go_records_fail_fast_witness :
  (exists w',
      Processed (@V1.parseMetricDataPoint testEnv (Some stepCount)) [] (Data stepCount) w'
      /\ @V1.incomingMetric testEnv (Some stepCount) [] = Returned w' None)
  \/ (exists pre datum post w1 w2 err,
        Data stepCount = pre ++ datum :: post
        /\ Processed (@V1.parseMetricDataPoint testEnv (Some stepCount)) [] pre w1
        /\ @V1.parseMetricDataPoint testEnv (Some stepCount) datum w1 = Returned w2 (Some err)
        /\ @V1.incomingMetric testEnv (Some stepCount) [] = Returned w2 (Some err)).
Proof.
  apply (@main_go_records_fail_fast testEnv stepCount []).
  discriminate.
Defined.

(** * Further properties *)

(** ** How a record ends *)

Section Record_runs.
Context `{Env}.

Lemma notDate_keys_NoDup (kvs : list (string * any)) (datum : gmap string any) :
  kvs ≡ₚ map_to_list datum -> NoDup (filter notDate kvs).*1.
Proof.
  intros Hp. rewrite (filter_notDate_perm _ _ Hp). apply NoDup_fst_map_to_list.
Qed.

Lemma notDate_length (kvs : list (string * any)) (datum : gmap string any) :
  kvs ≡ₚ map_to_list datum -> length (filter notDate kvs) = size (delete "date" datum).
Proof.
  intros Hp. rewrite (filter_notDate_perm _ _ Hp). apply length_map_to_list.
Qed.

(** The loop of [V2] keeps the names of the entries. *)
Lemma transcode_keys (m : healthDataMetric) (kvs fs : list (string * any)) :
  Forall2 (fun kv f => transcode m kv = inl f) kvs fs -> fs.*1 = kvs.*1.
Proof.
  induction 1 as [|kv f kvs fs Ht _ IH]; [reflexivity|].
  cbn. rewrite IH, (transcode_key _ _ _ Ht). reflexivity.
Qed.

Lemma V1_recordRun (m : healthDataMetric) (datum : gmap string any) (w : world) :
  recordRun m datum w (V1.parseMetricDataPoint (Some m) datum w).
Proof.
  destruct (datum !! "date") as [date|] eqn:Hd.
  - assert (Hhas : hasDate datum) by (unfold hasDate; rewrite Hd; eauto).
    destruct (date_cases date) as [(s & t & -> & Ht)|Hbad].
    + rewrite (V1_parse_run m datum w s t Hd Ht). cbv zeta.
      pose proof (mapiter_perm w datum) as Hp.
      apply run_submitted; [exact Hhas| | |].
      * repeat split; cbn.
        -- exists s. split; assumption.
        -- intros x. apply filter_notDate_no_date.
      * cbn. exact (notDate_keys_NoDup _ _ Hp).
      * cbn. exact (notDate_length _ _ Hp).
    + destruct (parse_bad_date (Some m) datum w date Hd Hbad) as (err & E1 & _).
      rewrite E1. apply run_bad_date. exact Hhas.
  - destruct (parse_no_date (Some m) datum w Hd) as (E1 & _).
    rewrite E1. apply run_skipped. exact Hd.
Qed.

Lemma V2_recordRun (m : healthDataMetric) (datum : gmap string any) (w : world) :
  recordRun m datum w (V2.parseMetricDataPoint (Some m) datum w).
Proof.
  destruct (datum !! "date") as [date|] eqn:Hd.
  - assert (Hhas : hasDate datum) by (unfold hasDate; rewrite Hd; eauto).
    destruct (date_cases date) as [(s & t & -> & Ht)|Hbad].
    + rewrite (V2_parse_run m datum w (AString s) t Hd)
        by (rewrite parseMetricDate_string; exact Ht).
      pose proof (mapiter_perm w datum) as Hp.
      destruct (V2.rangeDatum m (mapiter w datum) (basePoint m t)) as [p|err] eqn:Hrun.
      * destruct (rangeDatum_inl _ _ _ _ Hrun) as (fs & Hfs & ->).
        pose proof (transcode_keys _ _ _ Hfs) as Hkeys.
        apply run_submitted; [exact Hhas| | |].
        -- repeat split; cbn.
           ++ exists s. split; assumption.
           ++ intros x Hin.
              assert (Hk : "date" ∈ (filter notDate (mapiter w datum)).*1).
              { rewrite <- Hkeys. apply list_elem_of_fmap. exists ("date", x).
                split; [reflexivity|exact Hin]. }
              apply list_elem_of_fmap in Hk. destruct Hk as ([k v] & Hk & Hin').
              apply list_elem_of_filter in Hin'. destruct Hin' as [Hn _].
              apply Hn. symmetry. exact Hk.
        -- cbn. rewrite Hkeys. exact (notDate_keys_NoDup _ _ Hp).
        -- cbn. rewrite <- (Forall2_length _ _ _ Hfs). exact (notDate_length _ _ Hp).
      * apply run_bad_entry. exact Hhas.
    + destruct (parse_bad_date (Some m) datum w date Hd Hbad) as (err & _ & E2 & _).
      rewrite E2. apply run_bad_date. exact Hhas.
  - destruct (parse_no_date (Some m) datum w Hd) as (_ & E2).
    rewrite E2. apply run_skipped. exact Hd.
Qed.

End Record_runs.

(** ** How a metric ends *)

Section Metric_runs.
Context `{Env}.
Variable m : healthDataMetric.
Variable parse : gmap string any -> M (option error).
Variable loop : list (gmap string any) -> M (option error).

Hypothesis loop_nil : forall w, loop [] w = Returned w None.
Hypothesis loop_cons : forall datum rest w,
  loop (datum :: rest) w =
    match parse datum w with
    | Returned w' (Some e) => Returned w' (Some e)
    | Returned w' None => loop rest w'
    | Panicked w' => Panicked w'
    end.
Hypothesis parse_run : forall datum w, recordRun m datum w (parse datum w).

Lemma submittedFor_further (datum : gmap string any) (rest : list (gmap string any))
    (ps : list Point) :
  Forall (submittedFor m rest) ps -> Forall (submittedFor m (datum :: rest)) ps.
Proof.
  intros Hall. eapply Forall_impl; [exact Hall|]. intros p (d & Hd & Hp). exists d.
  split; [apply list_elem_of_further; exact Hd|exact Hp].
Qed.

Lemma loop_run (data : list (gmap string any)) (w : world) :
  exists evs r,
    loop data w = Returned (w ++ evs) r
    /\ Forall transcoderEvent evs
    /\ Forall (submittedFor m data) (points evs)
    /\ length (points evs) <= length (filter hasDate data)
    /\ ((forall w' p, influxWriteAPI_WritePoint w' p <> None) ->
        length (points evs) <= 1 /\ (points evs <> [] -> r <> None)).
Proof.
  revert w. induction data as [|datum rest IH]; intros w.
  - exists [], None. rewrite app_nil_r, loop_nil.
    split; [reflexivity|]. split; [constructor|]. split; [constructor|].
    split; [cbn; lia|]. intros _. split; [cbn; lia|]. intros Hc. contradiction.
  - rewrite loop_cons. pose proof (parse_run datum w) as Hrun.
    inversion Hrun as [Hno Hout|e Hhas Hout|e Hhas Hout|p Hhas Hp Hnd Hlen Hout];
      clear Hrun; rewrite filter_cons.
    + destruct (IH w) as (evs & r & Hloop & Hev & Hpts & Hle & Hdown).
      exists evs, r. rewrite decide_False
        by (unfold hasDate; rewrite Hno; intros [? ?]; discriminate).
      split; [exact Hloop|]. split; [exact Hev|].
      split; [apply submittedFor_further; exact Hpts|]. split; assumption.
    + exists [], (Some e). rewrite app_nil_r.
      split; [reflexivity|]. split; [constructor|]. split; [constructor|].
      split; [cbn; lia|]. intros _. split; [cbn; lia|]. intros Hc. contradiction.
    + exists [EvMapRange datum], (Some e).
      split; [reflexivity|]. split; [repeat constructor|]. split; [constructor|].
      split; [cbn; lia|]. intros _. split; [cbn; lia|]. intros Hc. contradiction.
    + rewrite decide_True by exact Hhas.
      assert (Hthis : submittedFor m (datum :: rest) p).
      { exists datum. split; [apply list_elem_of_here|]. auto. }
      destruct (influxWriteAPI_WritePoint (w ++ [EvMapRange datum]) p) as [e|] eqn:Hans.
      * exists [EvMapRange datum; EvWritePoint p], (Some e).
        split; [reflexivity|]. split; [repeat constructor|].
        split; [cbn; constructor; [exact Hthis|constructor]|].
        split; [cbn; lia|]. intros _. split; [cbn; lia|]. intros _. discriminate.
      * destruct (IH (w ++ [EvMapRange datum; EvWritePoint p]))
          as (evs & r & Hloop & Hev & Hpts & Hle & Hdown).
        exists ([EvMapRange datum; EvWritePoint p] ++ evs), r.
        rewrite app_assoc. split; [exact Hloop|].
        split; [repeat constructor; exact Hev|].
        split; [cbn; constructor; [exact Hthis|apply submittedFor_further; exact Hpts]|].
        split; [cbn; lia|].
        intros Hdn. exfalso. exact (Hdn _ _ Hans).
Qed.

End Metric_runs.

Section Metric_run_facts.
Context `{Env}.

Lemma V2_metricRun (m : healthDataMetric) (w : world) :
  metricRun m w (V2.incomingMetric (Some m) w).
Proof.
  rewrite V2_incomingMetric_loop.
  apply (loop_run m (V2.parseMetricDataPoint (Some m)) (V2.rangeData (Some m))).
  - reflexivity.
  - apply V2_rangeData_cons.
  - apply V2_recordRun.
Qed.

Lemma V1_metricRun (m : healthDataMetric) (w : world) :
  metricRun m w (V1.incomingMetric (Some m) w).
Proof.
  destruct (decide (Name m = "sleep_analysis")) as [Hs|Hs].
  - exists [], None. rewrite app_nil_r.
    split; [|split; [constructor|]; split; [constructor|]; split; [cbn; lia|];
             intros _; split; [cbn; lia|]; intros Hc; contradiction].
    unfold V1.incomingMetric, bind, deref, ret.
    destruct (Data m); [reflexivity|]. cbn [length Nat.eqb].
    rewrite decide_True by exact Hs. reflexivity.
  - rewrite V1_incomingMetric_loop by exact Hs.
    apply (loop_run m (V1.parseMetricDataPoint (Some m)) (V1.rangeData (Some m))).
    + reflexivity.
    + apply V1_rangeData_cons.
    + apply V1_recordRun.
Qed.

End Metric_run_facts.

Section Metric_properties.
Context `{Env}.

Lemma metricRun_newPoints (m : healthDataMetric) (w : world)
    (c : M (option error)) (evs : world) (r : option error) :
  c w = Returned (w ++ evs) r -> newPoints c w = points evs.
Proof. intros E. apply newPoints_app. rewrite E. reflexivity. Qed.

(** X4. [incomingMetric], in both versions, submits at most one point for
    each record of the metric that has a "date" key, and none for the
    others. *)
Theorem at_most_one_point_per_dated_record (m : healthDataMetric) (w : world) :
  length (newPoints (V1.incomingMetric (Some m)) w) <= length (filter hasDate (Data m))
  /\ length (newPoints (V2.incomingMetric (Some m)) w) <= length (filter hasDate (Data m)).
Proof.
  split.
  - destruct (V1_metricRun m w) as (evs & r & E & _ & _ & Hle & _).
    rewrite (metricRun_newPoints m w _ evs r E). exact Hle.
  - destruct (V2_metricRun m w) as (evs & r & E & _ & _ & Hle & _).
    rewrite (metricRun_newPoints m w _ evs r E). exact Hle.
Qed.

(** X5. When the write API refuses every point, [incomingMetric], in both
    versions, submits at most one point for a metric however many records
    it has, and returns an error if it submitted one. *)
Theorem a_refusing_store_sees_one_point_per_metric (m : healthDataMetric) (w : world) :
  (forall w' p, influxWriteAPI_WritePoint w' p <> None) ->
  (exists w' r,
      V1.incomingMetric (Some m) w = Returned w' r
      /\ length (newPoints (V1.incomingMetric (Some m)) w) <= 1
      /\ (newPoints (V1.incomingMetric (Some m)) w <> [] -> r <> None))
  /\ (exists w' r,
      V2.incomingMetric (Some m) w = Returned w' r
      /\ length (newPoints (V2.incomingMetric (Some m)) w) <= 1
      /\ (newPoints (V2.incomingMetric (Some m)) w <> [] -> r <> None)).
Proof.
  intros Hdown. split.
  - destruct (V1_metricRun m w) as (evs & r & E & _ & _ & _ & Hd).
    destruct (Hd Hdown) as [Hle Herr].
    exists (w ++ evs), r. rewrite (metricRun_newPoints m w _ evs r E). auto.
  - destruct (V2_metricRun m w) as (evs & r & E & _ & _ & _ & Hd).
    destruct (Hd Hdown) as [Hle Herr].
    exists (w ++ evs), r. rewrite (metricRun_newPoints m w _ evs r E). auto.
Qed.


End Metric_properties.

Lemma a_refusing_store_sees_one_point_per_metric_witness :
  (exists w' r,
      @V1.incomingMetric downEnv (Some heartRates) [] = Returned w' r
      /\ length (newPoints (@V1.incomingMetric downEnv (Some heartRates)) []) <= 1
      /\ (newPoints (@V1.incomingMetric downEnv (Some heartRates)) [] <> [] -> r <> None))
  /\ (exists w' r,
      @V2.incomingMetric downEnv (Some heartRates) [] = Returned w' r
      /\ length (newPoints (@V2.incomingMetric downEnv (Some heartRates)) []) <= 1
      /\ (newPoints (@V2.incomingMetric downEnv (Some heartRates)) [] <> [] -> r <> None)).
Proof.
  apply (@a_refusing_store_sees_one_point_per_metric downEnv heartRates []).
  intros w' p. discriminate.
Defined.

(** With a store that accepts them, both samples are submitted; with one
    that refuses them, the first only. *)
Example two_samples_two_stores :
  length (newPoints (@V2.incomingMetric testEnv (Some heartRates)) []) = 2
  /\ length (newPoints (@V2.incomingMetric downEnv (Some heartRates)) []) = 1.
Proof. vm_compute. split; reflexivity. Qed.

(** ** A sleep entry that is no date *)

Section Sleep_failures.
Context `{Env}.

(** An error of the loop over the entries is the error of one of them. *)
Lemma rangeDatum_inr (m : healthDataMetric) (kvs : list (string * any)) (p : Point) (e : error) :
  V2.rangeDatum m kvs p = inr e ->
  exists kv, kv ∈ filter notDate kvs /\ transcode m kv = inr e.
Proof.
  revert p. induction kvs as [|[k v] kvs IH]; intros p E.
  - discriminate E.
  - rewrite filter_cons. unfold notDate at 1. cbn [fst].
    destruct (decide (k = "date")) as [->|Hk].
    + rewrite decide_False by (intros Hn; apply Hn; reflexivity).
      cbn [V2.rangeDatum] in E. rewrite decide_True in E by reflexivity.
      apply (IH _ E).
    + rewrite decide_True by exact Hk.
      rewrite rangeDatum_step in E by exact Hk.
      destruct (transcode m (k, v)) as [f|e'] eqn:Et.
      * destruct (IH _ E) as (kv & Hin & Hkv). exists kv.
        split; [apply list_elem_of_further; exact Hin|exact Hkv].
      * injection E as <-. exists (k, v). split; [apply list_elem_of_here|exact Et].
Qed.

(** An entry the loop cannot transcode makes the loop fail. *)
Lemma rangeDatum_fails (m : healthDataMetric) (kvs : list (string * any)) (p : Point)
    (kv : string * any) (e0 : error) :
  kv ∈ filter notDate kvs -> transcode m kv = inr e0 ->
  exists e, V2.rangeDatum m kvs p = inr e.
Proof.
  intros Hin Hkv. destruct (V2.rangeDatum m kvs p) as [p'|e] eqn:E; [|eauto].
  destruct (rangeDatum_inl _ _ _ _ E) as (fs & Hfs & _).
  apply list_elem_of_lookup in Hin. destruct Hin as [i Hi].
  destruct (Forall2_lookup_l _ _ _ _ _ Hfs Hi) as (f & _ & Hf).
  rewrite Hkv in Hf. discriminate Hf.
Qed.

Lemma sleep_field_not_date (k : string) : k ∈ V2.sleepAnalysisDateFields -> k <> "date".
Proof.
  intros Hk ->.
  repeat (apply elem_of_cons in Hk; destruct Hk as [Hk|Hk]; [discriminate Hk|]).
  apply elem_of_nil in Hk. exact Hk.
Qed.

(** X7. In [src/unnamed/part_000], for a metric named "sleep_analysis"
    and a record with a valid "date": when one of the entries inBedEnd,
    inBedStart, sleepStart, sleepEnd is no valid date,
    [parseMetricDataPoint] walks the record, submits nothing and returns
    the error [parseMetricDate] gave for such an entry of the record. *)
Theorem bad_sleep_date_fails_the_record (m : healthDataMetric) (datum : gmap string any)
    (w : world) (date : any) (dateTime : Time) (k : string) (v : any) :
  Name m = "sleep_analysis" ->
  datum !! "date" = Some date ->
  V2.parseMetricDate date = inl dateTime ->
  k ∈ V2.sleepAnalysisDateFields ->
  datum !! k = Some v ->
  (forall t, V2.parseMetricDate v <> inl t) ->
  exists e k' v',
    V2.parseMetricDataPoint (Some m) datum w = Returned (w ++ [EvMapRange datum]) (Some e)
    /\ newPoints (V2.parseMetricDataPoint (Some m) datum) w = []
    /\ k' ∈ V2.sleepAnalysisDateFields
    /\ datum !! k' = Some v'
    /\ V2.parseMetricDate v' = inr e.
Proof.
  intros Hname Hdate Htime Hk Hv Hbad.
  pose proof (mapiter_perm w datum) as Hp.
  pose proof (filter_notDate_perm _ _ Hp) as Hq.
  assert (Hin : (k, v) ∈ filter notDate (mapiter w datum)).
  { rewrite Hq. apply elem_of_map_to_list.
    rewrite lookup_delete_ne; [exact Hv|].
    intros Hc. apply (sleep_field_not_date k Hk). symmetry. exact Hc. }
  assert (Hfail : exists e0, transcode m (k, v) = inr e0).
  { unfold transcode. cbn [fst snd]. rewrite decide_True by exact Hname.
    rewrite decide_True by exact Hk.
    destruct (V2.parseMetricDate v) as [t|e0]; [|eauto].
    exfalso. exact (Hbad t eq_refl). }
  destruct Hfail as [e0 He0].
  destruct (rangeDatum_fails m _ (basePoint m dateTime) _ _ Hin He0) as [e He].
  destruct (rangeDatum_inr _ _ _ _ He) as ([k' v'] & Hin' & Hkv').
  assert (Hrun : V2.parseMetricDataPoint (Some m) datum w
                 = Returned (w ++ [EvMapRange datum]) (Some e))
    by (rewrite (V2_parse_run m datum w date dateTime Hdate Htime), He; reflexivity).
  exists e, k', v'. split; [exact Hrun|].
  split; [apply (newPoints_app _ w [EvMapRange datum]); rewrite Hrun; reflexivity|].
  rewrite Hq in Hin'. apply elem_of_map_to_list, lookup_delete_Some in Hin'.
  destruct Hin' as [_ Hlook].
  unfold transcode in Hkv'. cbn [fst snd] in Hkv'.
  rewrite decide_True in Hkv' by exact Hname.
  destruct (decide (k' ∈ V2.sleepAnalysisDateFields)) as [Hs|Hs]; [|discriminate Hkv'].
  destruct (V2.parseMetricDate v') as [t|e'] eqn:Hpv; [discriminate Hkv'|].
  injection Hkv' as <-. auto.
Qed.

End Sleep_failures.

Lemma bad_sleep_date_fails_the_record_witness :
  exists e k' v',
    @V2.parseMetricDataPoint testEnv (Some brokenSleep) brokenSleepDatum []
      = Returned ([] ++ [EvMapRange brokenSleepDatum]) (Some e)
    /\ newPoints (@V2.parseMetricDataPoint testEnv (Some brokenSleep) brokenSleepDatum) [] = []
    /\ k' ∈ V2.sleepAnalysisDateFields
    /\ brokenSleepDatum !! k' = Some v'
    /\ @V2.parseMetricDate testEnv v' = inr e.
Proof.
  apply (@bad_sleep_date_fails_the_record testEnv brokenSleep brokenSleepDatum []
           (AString "2024-01-01 08:00:00 +0000") (mkTime 1704096000 0 0)
           "sleepStart" (AString "yesterday evening")).
  - reflexivity.
  - vm_compute. reflexivity.
  - vm_compute. reflexivity.
  - apply elem_of_cons; right; apply elem_of_cons; right; apply list_elem_of_here.
  - vm_compute. reflexivity.
  - intros t. vm_compute. discriminate.
Defined.

(** ** A metric all of whose records returned nil *)

Section Metric_counts.
Context `{Env}.
Variable m : healthDataMetric.
Variable parse : gmap string any -> M (option error).
Variable loop : list (gmap string any) -> M (option error).

Hypothesis loop_nil : forall w, loop [] w = Returned w None.
Hypothesis loop_cons : forall datum rest w,
  loop (datum :: rest) w =
    match parse datum w with
    | Returned w' (Some e) => Returned w' (Some e)
    | Returned w' None => loop rest w'
    | Panicked w' => Panicked w'
    end.
Hypothesis parse_run : forall datum w, recordRun m datum w (parse datum w).

(** When the loop returns nil it has submitted a point for every record
    with a "date". *)
Lemma loop_count (data : list (gmap string any)) (w evs : world) :
  loop data w = Returned (w ++ evs) None ->
  length (points evs) = length (filter hasDate data).
Proof.
  revert w evs. induction data as [|datum rest IH]; intros w evs E.
  - rewrite loop_nil in E. injection E as E.
    rewrite <- (app_nil_r w) in E at 1. apply app_inv_head in E. subst evs. reflexivity.
  - rewrite loop_cons in E. rewrite filter_cons.
    pose proof (parse_run datum w) as Hrun.
    inversion Hrun as [Hno Hout|e Hhas Hout|e Hhas Hout|p Hhas Hp Hnd Hlen Hout];
      clear Hrun; rewrite <- Hout in E.
    + rewrite decide_False
        by (unfold hasDate; rewrite Hno; intros [? ?]; discriminate).
      apply (IH _ _ E).
    + discriminate E.
    + discriminate E.
    + rewrite decide_True by exact Hhas.
      destruct (influxWriteAPI_WritePoint (w ++ [EvMapRange datum]) p) as [e|];
        [discriminate E|].
      destruct (loop_run m parse loop loop_nil loop_cons parse_run rest
                  (w ++ [EvMapRange datum; EvWritePoint p])) as (evs' & r & E' & _).
      rewrite E' in E. injection E as Ew ->.
      rewrite <- app_assoc in Ew. apply app_inv_head in Ew. subst evs.
      cbn. f_equal. apply (IH _ _ E').
Qed.

End Metric_counts.

(** ** The handler on any payload *)

Section Handler_runs.
Context `{Env}.
Variable incomingMetric : option healthDataMetric -> M (option error).
Variable due : healthDataMetric -> nat.

Hypothesis on_nil : forall w, incomingMetric None w = Panicked w.
Hypothesis on_metric : forall m w,
  exists evs r,
    incomingMetric (Some m) w = Returned (w ++ evs) r
    /\ Forall transcoderEvent evs
    /\ Forall (fun p => exists datum, datum ∈ Data m /\ pointOf m datum p) (points evs)
    /\ (r = None -> length (points evs) = due m).

Lemma pointFrom_further (metric : option healthDataMetric)
    (rest : list (option healthDataMetric)) (ps : list Point) :
  Forall (pointFrom rest) ps -> Forall (pointFrom (metric :: rest)) ps.
Proof.
  intros Hall. eapply Forall_impl; [exact Hall|].
  intros p (m & datum & Hm & Hp). exists m, datum.
  split; [apply list_elem_of_further; exact Hm|exact Hp].
Qed.

(** Once a metric has failed the loop ends with [hasErrors] set. *)
Lemma rangeMetrics_true (metrics : list (option healthDataMetric)) (w w' : world) (h : bool) :
  rangeMetrics incomingMetric metrics true w = Returned w' h -> h = true.
Proof.
  revert w. induction metrics as [|metric rest IH]; intros w E.
  - cbn in E. unfold ret in E. injection E as _ <-. reflexivity.
  - cbn [rangeMetrics] in E. unfold bind in E.
    destruct (incomingMetric metric w) as [w1 [e|]|w1]; try discriminate E;
      apply (IH _ E).
Qed.

Lemma rangeMetrics_run (metrics : list (option healthDataMetric)) (h : bool) (w : world) :
  exists evs,
    trace (rangeMetrics incomingMetric metrics h w) = w ++ evs
    /\ Forall transcoderEvent evs
    /\ Forall (pointFrom metrics) (points evs)
    /\ (forall w', rangeMetrics incomingMetric metrics h w = Returned w' false ->
          length (points evs) = duePoints due metrics).
Proof.
  revert h w. induction metrics as [|metric rest IH]; intros h w.
  - exists []. rewrite app_nil_r. split; [reflexivity|].
    split; [constructor|]. split; [constructor|]. intros _ _. reflexivity.
  - cbn [rangeMetrics]. unfold bind. destruct metric as [m|].
    + destruct (on_metric m w) as (evs1 & r & E1 & Hev1 & Hpts1 & Hcount1).
      rewrite E1.
      assert (Hhere : Forall (pointFrom (Some m :: rest)) (points evs1)).
      { eapply Forall_impl; [exact Hpts1|]. intros p (datum & Hd & Hp).
        exists m, datum. split; [apply list_elem_of_here|]. split; assumption. }
      destruct (IH (match r with Some _ => true | None => h end) (w ++ evs1))
        as (evs2 & E2 & Hev2 & Hpts2 & Hcount2).
      exists (evs1 ++ evs2). rewrite app_assoc.
      split; [destruct r; exact E2|].
      split; [apply Forall_app; split; assumption|].
      split; [rewrite points_app; apply Forall_app; split;
              [exact Hhere|apply pointFrom_further; exact Hpts2]|].
      intros w' E. destruct r as [e|].
      * apply rangeMetrics_true in E. discriminate E.
      * rewrite points_app, length_app, (Hcount1 eq_refl), (Hcount2 w' E).
        reflexivity.
    + rewrite on_nil. exists []. rewrite app_nil_r. split; [reflexivity|].
      split; [constructor|]. split; [constructor|]. intros w' E. discriminate E.
Qed.

(** The loop panics at the first nil metric, after the metrics before it. *)
Lemma rangeMetrics_nil (pre post : list (option healthDataMetric)) (h : bool) (w : world) :
  Forall is_Some pre ->
  exists rs w',
    Dispatched incomingMetric w pre rs w'
    /\ rangeMetrics incomingMetric (pre ++ None :: post) h w = Panicked w'.
Proof.
  revert h w. induction pre as [|metric pre IH]; intros h w Hall.
  - exists [], w. split; [constructor|].
    cbn [app rangeMetrics]. unfold bind. rewrite on_nil. reflexivity.
  - apply Forall_cons in Hall. destruct Hall as [[m ->] Hall].
    destruct (on_metric m w) as (evs1 & r & E1 & _).
    destruct (IH (match r with Some _ => true | None => h end) (w ++ evs1) Hall)
      as (rs & w' & Hd & E).
    exists (r :: rs), w'. split; [econstructor; eassumption|].
    cbn [app rangeMetrics]. unfold bind. rewrite E1. destruct r; exact E.
Qed.

(** The loop panics only at a nil metric. *)
Lemma rangeMetrics_panicked (metrics : list (option healthDataMetric)) (h : bool) (w w' : world) :
  rangeMetrics incomingMetric metrics h w = Panicked w' -> None ∈ metrics.
Proof.
  revert h w. induction metrics as [|metric rest IH]; intros h w E.
  - discriminate E.
  - destruct metric as [m|]; [|apply list_elem_of_here].
    apply list_elem_of_further.
    cbn [rangeMetrics] in E. unfold bind in E.
    destruct (on_metric m w) as (evs1 & r & E1 & _). rewrite E1 in E.
    destruct r; apply (IH _ _ E).
Qed.

End Handler_runs.

Section Handler_cases.
Context `{Env}.
Variable incomingMetric : option healthDataMetric -> M (option error).

(** The five ways through [handleDataPayload], in the order of its
    checks. *)
Lemma handleDataPayloadWith_cases (r : Request) (w : world) :
  let o := handleDataPayloadWith incomingMetric newResponseWriter r w in
  (Method r <> "POST" /\ o = Returned w (mkResponse (Some 405) ""))
  \/ (Method r = "POST"
      /\ Header_Get (Header r) "Authorization" <> authenticationToken
      /\ o = Returned w (mkResponse (Some 403) "missing or invalid Authorization header"))
  \/ (Method r = "POST"
      /\ Header_Get (Header r) "Authorization" = authenticationToken
      /\ ((exists err, Body r = inr err
                       /\ o = Returned (w ++ [EvReadAll]) (mkResponse (Some 500) ""))
          \/ (exists bdbs err, Body r = inl bdbs /\ json_Unmarshal bdbs = inr err
                /\ o = Returned (w ++ [EvReadAll; EvUnmarshal bdbs])
                                (mkResponse (Some 400) ""))
          \/ (exists bdbs payload, Body r = inl bdbs /\ json_Unmarshal bdbs = inl payload
                /\ o = match rangeMetrics incomingMetric (Metrics payload) false
                               (w ++ preamble bdbs) with
                       | Returned w' hasErrors =>
                           Returned w' (if hasErrors then mkResponse (Some 500) ""
                                        else newResponseWriter)
                       | Panicked w' => Panicked w'
                       end))).
Proof.
  cbv zeta. unfold handleDataPayloadWith.
  destruct (decide (Method r = "POST")) as [Hm|Hm].
  2:{ left. split; [exact Hm|]. rewrite bool_decide_false by exact Hm. reflexivity. }
  right. rewrite bool_decide_true by exact Hm. cbn [negb].
  destruct (decide (Header_Get (Header r) "Authorization" = authenticationToken)) as [Ha|Ha].
  2:{ left. split; [exact Hm|]. split; [exact Ha|].
      rewrite bool_decide_false by exact Ha. reflexivity. }
  right. split; [exact Hm|]. split; [exact Ha|].
  rewrite bool_decide_true by exact Ha. cbn [negb].
  unfold bind, emit, ret.
  destruct (Body r) as [bdbs|err].
  2:{ left. exists err. split; reflexivity. }
  right. destruct (json_Unmarshal bdbs) as [payload|err] eqn:Hj.
  2:{ left. exists bdbs, err. rewrite <- app_assoc.
      split; [reflexivity|]. split; [exact Hj|reflexivity]. }
  right. exists bdbs, payload. split; [reflexivity|]. split; [exact Hj|].
  unfold preamble. rewrite <- !app_assoc. cbn [app].
  destruct (rangeMetrics _ _ _ _) as [w' [|]|w']; reflexivity.
Qed.

End Handler_cases.

Section Handler_instances.
Context `{Env}.

Lemma V2_on_metric (m : healthDataMetric) (w : world) :
  exists evs r,
    V2.incomingMetric (Some m) w = Returned (w ++ evs) r
    /\ Forall transcoderEvent evs
    /\ Forall (fun p => exists datum, datum ∈ Data m /\ pointOf m datum p) (points evs)
    /\ (r = None -> length (points evs) = datedRecords m).
Proof.
  destruct (V2_metricRun m w) as (evs & r & E & Hev & Hpts & _).
  exists evs, r. split; [exact E|]. split; [exact Hev|]. split.
  - eapply Forall_impl; [exact Hpts|]. intros p (datum & Hd & Hp & _). eauto.
  - intros ->. rewrite V2_incomingMetric_loop in E.
    apply (loop_count m (V2.parseMetricDataPoint (Some m)) (V2.rangeData (Some m))
             (fun _ => eq_refl) (V2_rangeData_cons (Some m)) (V2_recordRun m) _ _ _ E).
Qed.

Lemma V1_on_metric (m : healthDataMetric) (w : world) :
  exists evs r,
    V1.incomingMetric (Some m) w = Returned (w ++ evs) r
    /\ Forall transcoderEvent evs
    /\ Forall (fun p => exists datum, datum ∈ Data m /\ pointOf m datum p) (points evs)
    /\ (r = None -> length (points evs) = datedRecordsV1 m).
Proof.
  destruct (V1_metricRun m w) as (evs & r & E & Hev & Hpts & Hle & _).
  exists evs, r. split; [exact E|]. split; [exact Hev|]. split.
  - eapply Forall_impl; [exact Hpts|]. intros p (datum & Hd & Hp & _). eauto.
  - intros ->. unfold datedRecordsV1.
    destruct (decide (Name m = "sleep_analysis")) as [Hs|Hs].
    + assert (E0 : V1.incomingMetric (Some m) w = Returned w None).
      { unfold V1.incomingMetric, bind, deref, ret.
        destruct (Data m); [reflexivity|]. cbn [length Nat.eqb].
        rewrite decide_True by exact Hs. reflexivity. }
      rewrite E0 in E. injection E as E.
      rewrite <- (app_nil_r w) in E at 1. apply app_inv_head in E. subst evs. reflexivity.
    + rewrite V1_incomingMetric_loop in E by exact Hs.
      apply (loop_count m (V1.parseMetricDataPoint (Some m)) (V1.rangeData (Some m))
               (fun _ => eq_refl) (V1_rangeData_cons (Some m)) (V1_recordRun m) _ _ _ E).
Qed.

End Handler_instances.

Section Handler_theory.
Context `{Env}.
Variable incomingMetric : option healthDataMetric -> M (option error).
Variable due : healthDataMetric -> nat.

Hypothesis on_nil : forall w, incomingMetric None w = Panicked w.
Hypothesis on_metric : forall m w,
  exists evs r,
    incomingMetric (Some m) w = Returned (w ++ evs) r
    /\ Forall transcoderEvent evs
    /\ Forall (fun p => exists datum, datum ∈ Data m /\ pointOf m datum p) (points evs)
    /\ (r = None -> length (points evs) = due m).

Let handle := handleDataPayloadWith incomingMetric newResponseWriter.

Lemma handle_rejections (r : Request) (w : world) :
  (Method r <> "POST" -> handle r w = Returned w (mkResponse (Some 405) ""))
  /\ (Method r = "POST" ->
      Header_Get (Header r) "Authorization" = authenticationToken ->
      forall err, Body r = inr err ->
        handle r w = Returned (w ++ [EvReadAll]) (mkResponse (Some 500) ""))
  /\ (Method r = "POST" ->
      Header_Get (Header r) "Authorization" = authenticationToken ->
      forall bdbs err, Body r = inl bdbs -> json_Unmarshal bdbs = inr err ->
        handle r w = Returned (w ++ [EvReadAll; EvUnmarshal bdbs]) (mkResponse (Some 400) "")).
Proof.
  pose proof (handleDataPayloadWith_cases incomingMetric r w) as Hc. cbv zeta in Hc.
  fold handle in Hc.
  destruct Hc as [[Hm E]|[(Hm & Ha & E)|(Hm & Ha & [(e & Hb & E)|[(b & e & Hb & Hj & E)
                                                                |(b & pl & Hb & Hj & E)]])]].
  - split; [intros _; exact E|]. split; intros; contradiction.
  - split; [intros; contradiction|]. split; intros; contradiction.
  - split; [intros; contradiction|]. split; [intros; exact E|].
    intros _ _ b e' Hb'. rewrite Hb in Hb'. discriminate Hb'.
  - split; [intros; contradiction|]. split.
    + intros _ _ e' Hb'. rewrite Hb in Hb'. discriminate Hb'.
    + intros _ _ b' e' Hb' _. rewrite Hb in Hb'. injection Hb' as <-. exact E.
  - split; [intros; contradiction|]. split.
    + intros _ _ e' Hb'. rewrite Hb in Hb'. discriminate Hb'.
    + intros _ _ b' e' Hb' Hj'. rewrite Hb in Hb'. injection Hb' as <-.
      rewrite Hj in Hj'. discriminate Hj'.
Qed.

(** What a run of the handler on an accepted payload adds to the trace. *)
Lemma handle_payload_trace (r : Request) (w : world) (bdbs : string)
    (payload : healthDataPayload) :
  handle r w = match rangeMetrics incomingMetric (Metrics payload) false
                       (w ++ preamble bdbs) with
               | Returned w' hasErrors =>
                   Returned w' (if hasErrors then mkResponse (Some 500) ""
                                else newResponseWriter)
               | Panicked w' => Panicked w'
               end ->
  exists tail,
    trace (handle r w) = w ++ preamble bdbs ++ tail
    /\ Forall transcoderEvent tail
    /\ Forall (pointFrom (Metrics payload)) (points tail)
    /\ (forall w', handle r w = Returned w' newResponseWriter ->
          length (points tail) = duePoints due (Metrics payload)).
Proof.
  intros E.
  destruct (rangeMetrics_run incomingMetric due on_nil on_metric (Metrics payload) false
              (w ++ preamble bdbs)) as (tail & Et & Hev & Hpts & Hcount).
  exists tail. rewrite app_assoc. split; [|split; [exact Hev|split; [exact Hpts|]]].
  - rewrite E. destruct (rangeMetrics _ _ _ _); exact Et.
  - intros w' E'. rewrite E in E'.
    destruct (rangeMetrics _ _ _ _) as [w1 [|]|w1] eqn:Er; try discriminate E'.
    injection E' as ->. apply (Hcount w' eq_refl).
Qed.

Lemma handle_trace (r : Request) (w : world) :
  exists evs, trace (handle r w) = w ++ evs /\ requestTrace r evs.
Proof.
  pose proof (handleDataPayloadWith_cases incomingMetric r w) as Hc. cbv zeta in Hc.
  fold handle in Hc. unfold requestTrace.
  destruct Hc as [[Hm E]|[(Hm & Ha & E)|(Hm & Ha & [(e & Hb & E)|[(b & e & Hb & Hj & E)
                                                                |(b & pl & Hb & Hj & E)]])]].
  - exists []. rewrite E, app_nil_r. auto.
  - exists []. rewrite E, app_nil_r. auto.
  - exists [EvReadAll]. rewrite E. auto.
  - exists [EvReadAll; EvUnmarshal b]. rewrite E. split; [reflexivity|].
    right; right; left. eauto.
  - destruct (handle_payload_trace r w b pl E) as (tail & Et & Hev & _).
    exists (preamble b ++ tail). split; [exact Et|].
    right; right; right. eauto.
Qed.

Lemma handle_points (r : Request) (w : world) (p : Point) :
  p ∈ newPoints (handle r) w ->
  Method r = "POST"
  /\ Header_Get (Header r) "Authorization" = authenticationToken
  /\ exists bdbs payload,
       Body r = inl bdbs /\ json_Unmarshal bdbs = inl payload
       /\ pointFrom (Metrics payload) p.
Proof.
  pose proof (handleDataPayloadWith_cases incomingMetric r w) as Hc. cbv zeta in Hc.
  fold handle in Hc. intros Hin.
  assert (Hnone : forall evs rw, handle r w = Returned (w ++ evs) rw -> points evs = [] ->
                    False).
  { intros evs rw E Hp. rewrite (newPoints_app (handle r) w evs) in Hin
      by (rewrite E; reflexivity).
    rewrite Hp in Hin. apply elem_of_nil in Hin. exact Hin. }
  destruct Hc as [[Hm E]|[(Hm & Ha & E)|(Hm & Ha & [(e & Hb & E)|[(b & e & Hb & Hj & E)
                                                                |(b & pl & Hb & Hj & E)]])]].
  - exfalso. eapply (Hnone []); [rewrite app_nil_r; exact E|reflexivity].
  - exfalso. eapply (Hnone []); [rewrite app_nil_r; exact E|reflexivity].
  - exfalso. apply (Hnone _ _ E). reflexivity.
  - exfalso. apply (Hnone _ _ E). reflexivity.
  - split; [exact Hm|]. split; [exact Ha|]. exists b, pl.
    split; [exact Hb|]. split; [exact Hj|].
    destruct (handle_payload_trace r w b pl E) as (tail & Et & _ & Hpts & _).
    rewrite (newPoints_app (handle r) w _ Et), points_app in Hin. cbn [preamble points app] in Hin.
    exact (proj1 (Forall_forall _ _) Hpts p Hin).
Qed.

Lemma handle_panicked (r : Request) (w w' : world) :
  handle r w = Panicked w' ->
  Method r = "POST"
  /\ Header_Get (Header r) "Authorization" = authenticationToken
  /\ exists bdbs payload,
       Body r = inl bdbs /\ json_Unmarshal bdbs = inl payload
       /\ None ∈ Metrics payload.
Proof.
  pose proof (handleDataPayloadWith_cases incomingMetric r w) as Hc. cbv zeta in Hc.
  fold handle in Hc. intros Hp. rewrite Hp in Hc.
  destruct Hc as [[Hm E]|[(Hm & Ha & E)|(Hm & Ha & [(e & Hb & E)|[(b & e & Hb & Hj & E)
                                                                |(b & pl & Hb & Hj & E)]])]];
    try discriminate E.
  split; [exact Hm|]. split; [exact Ha|]. exists b, pl.
  split; [exact Hb|]. split; [exact Hj|].
  destruct (rangeMetrics _ _ _ _) as [w1 h|w1] eqn:Er; [discriminate E|].
  apply (rangeMetrics_panicked incomingMetric due on_metric _ _ _ _ Er).
Qed.

Lemma handle_nil (r : Request) (w : world) (bdbs : string) (payload : healthDataPayload)
    (pre post : list (option healthDataMetric)) :
  Method r = "POST" ->
  Header_Get (Header r) "Authorization" = authenticationToken ->
  Body r = inl bdbs ->
  json_Unmarshal bdbs = inl payload ->
  Metrics payload = pre ++ None :: post ->
  Forall is_Some pre ->
  exists rs w',
    Dispatched incomingMetric (w ++ preamble bdbs) pre rs w'
    /\ handle r w = Panicked w'.
Proof.
  intros Hm Ha Hb Hj Hmet Hall.
  destruct (rangeMetrics_nil incomingMetric due on_nil on_metric pre post false
              (w ++ preamble bdbs) Hall) as (rs & w' & Hd & E).
  exists rs, w'. split; [exact Hd|]. unfold handle.
  rewrite (handleDataPayloadWith_payload incomingMetric _ _ _ _ _ Hm Ha Hb Hj).
  rewrite Hmet. unfold preamble in E. rewrite E. reflexivity.
Qed.

Lemma handle_responses (r : Request) (w w' : world) (rw : ResponseWriter) :
  handle r w = Returned w' rw -> rw ∈ responses.
Proof.
  pose proof (handleDataPayloadWith_cases incomingMetric r w) as Hc. cbv zeta in Hc.
  fold handle in Hc. intros Hr. rewrite Hr in Hc. unfold responses.
  assert (Hin : forall x : ResponseWriter,
            x = mkResponse None "" \/ x = mkResponse (Some 400) ""
            \/ x = mkResponse (Some 403) "missing or invalid Authorization header"
            \/ x = mkResponse (Some 405) "" \/ x = mkResponse (Some 500) "" ->
            x ∈ [mkResponse None ""; mkResponse (Some 400) "";
                 mkResponse (Some 403) "missing or invalid Authorization header";
                 mkResponse (Some 405) ""; mkResponse (Some 500) ""]).
  { intros x Hx. rewrite !elem_of_cons. tauto. }
  destruct Hc as [[Hm E]|[(Hm & Ha & E)|(Hm & Ha & [(e & Hb & E)|[(b & e & Hb & Hj & E)
                                                                |(b & pl & Hb & Hj & E)]])]].
  - injection E as _ ->. apply Hin. auto 6.
  - injection E as _ ->. apply Hin. auto 6.
  - injection E as _ ->. apply Hin. auto 6.
  - injection E as _ ->. apply Hin. auto 6.
  - destruct (rangeMetrics _ _ _ _) as [w1 [|]|w1]; try discriminate E;
      injection E as _ ->; unfold newResponseWriter; apply Hin; auto 6.
Qed.


End Handler_theory.

(** ** The handler, in both versions *)

Section Handler_properties.
Context `{Env}.

(** X8. The checks of [handleDataPayload], in both versions, in their
    order: a request that is no POST is answered 405 whatever its header
    and body, and nothing happens; an authorized POST whose body cannot
    be read is answered 500 after the attempt to read it; one whose body
    is no JSON payload is answered 400 after reading and decoding, and
    the debug file is not written.  None of them has a body, and no point
    is submitted. *)
Theorem early_exits_of_the_handler (r : Request) (w : world) :
  (Method r <> "POST" ->
     V1.handleDataPayload newResponseWriter r w = Returned w (mkResponse (Some 405) "")
     /\ V2.handleDataPayload newResponseWriter r w = Returned w (mkResponse (Some 405) ""))
  /\ (Method r = "POST" ->
      Header_Get (Header r) "Authorization" = authenticationToken ->
      forall err, Body r = inr err ->
        V1.handleDataPayload newResponseWriter r w
          = Returned (w ++ [EvReadAll]) (mkResponse (Some 500) "")
        /\ V2.handleDataPayload newResponseWriter r w
          = Returned (w ++ [EvReadAll]) (mkResponse (Some 500) ""))
  /\ (Method r = "POST" ->
      Header_Get (Header r) "Authorization" = authenticationToken ->
      forall bdbs err, Body r = inl bdbs -> json_Unmarshal bdbs = inr err ->
        V1.handleDataPayload newResponseWriter r w
          = Returned (w ++ [EvReadAll; EvUnmarshal bdbs]) (mkResponse (Some 400) "")
        /\ V2.handleDataPayload newResponseWriter r w
          = Returned (w ++ [EvReadAll; EvUnmarshal bdbs]) (mkResponse (Some 400) "")).
Proof.
  destruct (handle_rejections V1.incomingMetric r w) as (A1 & B1 & C1).
  destruct (handle_rejections V2.incomingMetric r w) as (A2 & B2 & C2).
  split; [|split].
  - intros Hm. split; [exact (A1 Hm)|exact (A2 Hm)].
  - intros Hm Ha err Hb. split; [exact (B1 Hm Ha err Hb)|exact (B2 Hm Ha err Hb)].
  - intros Hm Ha b err Hb Hj.
    split; [exact (C1 Hm Ha b err Hb Hj)|exact (C2 Hm Ha b err Hb Hj)].
Qed.

(** X9. Whatever the request and however the handler ends, in both
    versions, what it adds to the trace is a prefix of: the body is read
    once, decoded once, the debug file payload.json is written once with
    the body as it was read, and only then come the loops over records
    and the submissions of points. *)
Theorem trace_of_the_handler (r : Request) (w : world) :
  (exists evs, trace (V1.handleDataPayload newResponseWriter r w) = w ++ evs
               /\ requestTrace r evs)
  /\ (exists evs, trace (V2.handleDataPayload newResponseWriter r w) = w ++ evs
                  /\ requestTrace r evs).
Proof.
  split.
  - apply (handle_trace V1.incomingMetric datedRecordsV1 (fun _ => eq_refl) V1_on_metric).
  - apply (handle_trace V2.incomingMetric datedRecords (fun _ => eq_refl) V2_on_metric).
Qed.

(** X10. A point the handler submits, in either version, was submitted
    for an authorized POST whose body decoded to a payload, and it is a
    well-formed point of a record of a metric of that payload. *)
Theorem points_of_the_handler (r : Request) (w : world) :
  forall p,
    p ∈ newPoints (V1.handleDataPayload newResponseWriter r) w
    \/ p ∈ newPoints (V2.handleDataPayload newResponseWriter r) w ->
    Method r = "POST"
    /\ Header_Get (Header r) "Authorization" = authenticationToken
    /\ exists bdbs payload,
         Body r = inl bdbs /\ json_Unmarshal bdbs = inl payload
         /\ pointFrom (Metrics payload) p.
Proof.
  intros p [Hin|Hin].
  - apply (handle_points V1.incomingMetric datedRecordsV1 (fun _ => eq_refl) V1_on_metric
             r w p Hin).
  - apply (handle_points V2.incomingMetric datedRecords (fun _ => eq_refl) V2_on_metric
             r w p Hin).
Qed.

(** X11. The handler panics, in either version, exactly on an authorized
    POST whose body decodes to a payload with a null metric.  It then
    panics at the first null metric: the metrics before it were handed to
    [incomingMetric] in order, the metrics after it are not looked at. *)
Theorem the_handler_panics_exactly_on_a_null_metric (r : Request) (w : world) :
  (forall w',
      V1.handleDataPayload newResponseWriter r w = Panicked w'
      \/ V2.handleDataPayload newResponseWriter r w = Panicked w' ->
      Method r = "POST"
      /\ Header_Get (Header r) "Authorization" = authenticationToken
      /\ exists bdbs payload,
           Body r = inl bdbs /\ json_Unmarshal bdbs = inl payload
           /\ None ∈ Metrics payload)
  /\ (forall bdbs payload pre post,
        Method r = "POST" ->
        Header_Get (Header r) "Authorization" = authenticationToken ->
        Body r = inl bdbs ->
        json_Unmarshal bdbs = inl payload ->
        Metrics payload = pre ++ None :: post ->
        Forall is_Some pre ->
        (exists rs w',
            Dispatched V1.incomingMetric (w ++ preamble bdbs) pre rs w'
            /\ V1.handleDataPayload newResponseWriter r w = Panicked w')
        /\ (exists rs w',
            Dispatched V2.incomingMetric (w ++ preamble bdbs) pre rs w'
            /\ V2.handleDataPayload newResponseWriter r w = Panicked w')).
Proof.
  split.
  - intros w' [E|E].
    + apply (handle_panicked V1.incomingMetric datedRecordsV1 V1_on_metric r w w' E).
    + apply (handle_panicked V2.incomingMetric datedRecords V2_on_metric r w w' E).
  - intros b pl pre post Hm Ha Hb Hj Hmet Hall. split.
    + apply (handle_nil V1.incomingMetric datedRecordsV1 (fun _ => eq_refl) V1_on_metric
               r w b pl pre post Hm Ha Hb Hj Hmet Hall).
    + apply (handle_nil V2.incomingMetric datedRecords (fun _ => eq_refl) V2_on_metric
               r w b pl pre post Hm Ha Hb Hj Hmet Hall).
Qed.

(** X12. When the handler returns, in either version, its response is
    one of five: no status written and no body (the client sees 200), or
    400, 405 or 500 without a body, or 403 with the body "missing or
    invalid Authorization header". *)
Theorem responses_of_the_handler (r : Request) (w : world) :
  forall w' rw,
    V1.handleDataPayload newResponseWriter r w = Returned w' rw
    \/ V2.handleDataPayload newResponseWriter r w = Returned w' rw ->
    rw ∈ responses.
Proof.
  intros w' rw [E|E].
  - apply (handle_responses V1.incomingMetric r w w' rw E).
  - apply (handle_responses V2.incomingMetric r w w' rw E).
Qed.


End Handler_properties.

Lemma points_of_the_handler_witness :
  Method (authorized mixedBody) = "POST"
  /\ Header_Get (Header (authorized mixedBody)) "Authorization" = @authenticationToken testEnv
  /\ exists bdbs payload,
       Body (authorized mixedBody) = inl bdbs /\ @json_Unmarshal testEnv bdbs = inl payload
       /\ @pointFrom testEnv (Metrics payload) heartRatePoint.
Proof.
  apply (@points_of_the_handler testEnv (authorized mixedBody) [] heartRatePoint).
  right. vm_compute. apply list_elem_of_here.
Defined.

Lemma responses_of_the_handler_witness :
  mkResponse (Some 500) "" ∈ responses.
Proof.
  apply (@responses_of_the_handler testEnv (authorized mixedBody) []
           [EvReadAll; EvUnmarshal mixedBody; EvWriteFile "payload.json" mixedBody;
            EvMapRange heartRateDatum; EvWritePoint heartRatePoint]
           (mkResponse (Some 500) "")).
  right. vm_compute. reflexivity.
Defined.


(** The early exits on concrete requests. *)
Example early_exits :
  @V2.handleDataPayload testEnv newResponseWriter unreadable []
    = Returned [EvReadAll] (mkResponse (Some 500) "")
  /\ @V2.handleDataPayload testEnv newResponseWriter (authorized "{") []
    = Returned [EvReadAll; EvUnmarshal "{"] (mkResponse (Some 400) "").
Proof. vm_compute. split; reflexivity. Qed.

(** ** [main] in the two versions *)

(** X14. [main] checks the token, then the organization, and no other
    flag: it serves exactly when both are given and not empty.  The two
    versions end in the same [log.Fatal], or serve with the same settings
    but for the address handed to the client, which [src/main.go]
    prefixes with "http://". *)
Theorem main_in_the_two_versions (args : gmap string string) :
  (forall msg, V1.main args = Fatal msg <-> V2.main args = Fatal msg)
  /\ (forall s,
        V2.main args = ListenAndServe s <->
        V1.main args = ListenAndServe
                         (mkSettings ("http://" +:+ serverURL s) (clientToken s) (writeOrg s)
                                     (writeBucket s) (listenAddr s) (sharedSecret s)))
  /\ ((exists s, V2.main args = ListenAndServe s) <->
      flag_String args "influxdb-token" "" <> "" /\ flag_String args "influxdb-org" "" <> "")
  /\ (forall s, V2.main args = ListenAndServe s ->
        serverURL s = flag_String args "influxdb-host" "localhost:8086"
        /\ clientToken s = flag_String args "influxdb-token" ""
        /\ writeOrg s = flag_String args "influxdb-org" ""
        /\ writeBucket s = flag_String args "influxdb-bucket" ""
        /\ listenAddr s = flag_String args "listen" "0.0.0.0:8082"
        /\ sharedSecret s = flag_String args "auth-token" "supersecret").
Proof.
  unfold V1.main, V2.main, mainWith.
  destruct (decide (flag_String args "influxdb-token" "" = "")) as [Ht|Ht];
    [|destruct (decide (flag_String args "influxdb-org" "" = "")) as [Ho|Ho]].
  - split; [intros msg; split; intros E; exact E|].
    split; [intros s; split; intros E; discriminate E|].
    split; [split; [intros [s E]; discriminate E|intros [Hc _]; contradiction]|].
    intros s E. discriminate E.
  - split; [intros msg; split; intros E; exact E|].
    split; [intros s; split; intros E; discriminate E|].
    split; [split; [intros [s E]; discriminate E|intros [_ Hc]; contradiction]|].
    intros s E. discriminate E.
  - split; [intros msg; split; intros E; discriminate E|].
    split; [|split; [split; [intros _; split; assumption|intros _; eauto]|]].
    + intros s. split; intros E.
      * injection E as <-. reflexivity.
      * destruct s as [url tok org bucket listen secret].
        cbn [serverURL clientToken writeOrg writeBucket listenAddr sharedSecret] in E.
        injection E as Hurl <- <- <- <- <-.
        change (flag_String args "influxdb-host" "localhost:8086" = url) in Hurl.
        rewrite Hurl. reflexivity.
    + intros s E. injection E as <-. cbn. repeat split; reflexivity.
Qed.

(** ** A nil metric *)

Section Nil_metric.
Context `{Env}.

(** X15. [parseMetricDataPoint] looks at the "date" of the record before
    it touches the metric: for a nil metric it panics, with nothing done,
    when the record has a valid "date", and otherwise returns what it
    returns for any metric; [incomingMetric] panics on a nil metric at
    once. *)
Theorem a_nil_metric_is_dereferenced_after_the_date (datum : gmap string any) (w : world) :
  (V1.incomingMetric None w = Panicked w /\ V2.incomingMetric None w = Panicked w)
  /\ ((exists s t, datum !! "date" = Some (AString s) /\ time_Parse dateLayout s = inl t) ->
      V1.parseMetricDataPoint None datum w = Panicked w
      /\ V2.parseMetricDataPoint None datum w = Panicked w)
  /\ (~ (exists s t, datum !! "date" = Some (AString s) /\ time_Parse dateLayout s = inl t) ->
      forall m,
        V1.parseMetricDataPoint None datum w = V1.parseMetricDataPoint (Some m) datum w
        /\ V2.parseMetricDataPoint None datum w = V2.parseMetricDataPoint (Some m) datum w
        /\ exists r, V1.parseMetricDataPoint None datum w = Returned w r
                     /\ V2.parseMetricDataPoint None datum w = Returned w r).
Proof.
  split; [split; reflexivity|]. split.
  - intros (s & t & Hd & Ht).
    unfold V1.parseMetricDataPoint, V2.parseMetricDataPoint. rewrite Hd.
    rewrite parseMetricDate_string. change "2006-01-02 15:04:05 -0700" with dateLayout.
    rewrite Ht. split; reflexivity.
  - intros Hno m.
    destruct (datum !! "date") as [date|] eqn:Hd.
    + assert (Hbad : forall s t, date = AString s -> time_Parse dateLayout s <> inl t).
      { intros s t -> Ht. apply Hno. eauto. }
      destruct (parse_bad_date None datum w date Hd Hbad) as (e & E1 & E2 & _).
      destruct (parse_bad_date (Some m) datum w date Hd Hbad) as (e' & E1' & E2' & _).
      rewrite E1, E2, E1', E2'.
      assert (e = e') as <-.
      { clear -E1 E1' Hd. unfold V1.parseMetricDataPoint in E1, E1'. rewrite Hd in E1, E1'.
        destruct date as [| | |s| | |]; try congruence.
        destruct (time_Parse _ s); [discriminate E1|congruence]. }
      split; [reflexivity|]. split; [reflexivity|]. eauto.
    + destruct (parse_no_date None datum w Hd) as (E1 & E2).
      destruct (parse_no_date (Some m) datum w Hd) as (E1' & E2').
      rewrite E1, E2, E1', E2'. split; [reflexivity|]. split; [reflexivity|]. eauto.
Qed.

End Nil_metric.

Lemma main_in_the_two_versions_witness :
  V1.main someFlags
    = ListenAndServe (mkSettings "http://localhost:8086" "t0ken" "home" ""
                                 "0.0.0.0:8082" "supersecret")
  /\ V2.main noFlags = Fatal "You must supply an InfluxDB 2 token".
Proof.
  destruct (main_in_the_two_versions someFlags) as (_ & Hserve & _).
  destruct (main_in_the_two_versions noFlags) as (Hfatal & _).
  split.
  - apply (proj1 (Hserve (mkSettings "localhost:8086" "t0ken" "home" ""
                                     "0.0.0.0:8082" "supersecret"))).
    vm_compute. reflexivity.
  - apply (proj1 (Hfatal _)). vm_compute. reflexivity.
Defined.

Lemma a_nil_metric_is_dereferenced_after_the_date_witness :
  @V1.parseMetricDataPoint testEnv None heartRateDatum [] = Panicked []
  /\ @V2.parseMetricDataPoint testEnv None heartRateDatum [] = Panicked [].
Proof.
  apply (proj1 (proj2 (@a_nil_metric_is_dereferenced_after_the_date testEnv
                         heartRateDatum []))).
  exists "2024-01-01 08:00:00 +0000", (mkTime 1704096000 0 0).
  split; vm_compute; reflexivity.
Defined.
